(** * scripts/set-rn-version.js: a shallow embedding

    The script takes a version, a build type and an optional map of dependency
    versions, and writes the version into the files of the React Native
    package: four source files rendered from templates, the package manifest,
    the manifest of the template project and ReactAndroid's gradle.properties.
    It then shells out to diff and grep to count the changed lines that carry
    the new version, and warns when the count is not the expected one.

    JavaScript strings are modelled as [string] (code units of one byte),
    the working directory as a finite map from paths to file contents. *)

From Stdlib Require Import Ascii DecimalString DecimalNat.
From stdpp Require Import base option list strings gmap.

(** ** JavaScript strings *)

Module JS.

(** The characters the model names. *)
Definition dollar : ascii := "$"%char.
Definition dquote : ascii := "034"%char.
Definition squote : ascii := "'"%char.
Definition backtick : ascii := "`"%char.
Definition ampersand : ascii := "&"%char.
Definition LF : ascii := "010"%char.
Definition CR : ascii := "013"%char.

(** [s.startsWith(p)]. *)
Fixpoint starts_with (p s : string) : bool :=
  match p, s with
  | EmptyString, _ => true
  | String _ _, EmptyString => false
  | String a p', String b s' => Ascii.eqb a b && starts_with p' s'
  end.

(** [s.slice(n)]. *)
Fixpoint slice_from (n : nat) (s : string) : string :=
  match n, s with
  | O, _ => s
  | S _, EmptyString => EmptyString
  | S n', String _ s' => slice_from n' s'
  end.

(** The first occurrence of [p] in [s], as the text before it and the text
    after it: [s.indexOf(p)] with both slices. *)
Fixpoint split_first (p s : string) : option (string * string) :=
  if starts_with p s then Some (EmptyString, slice_from (String.length p) s)
  else
    match s with
    | EmptyString => None
    | String c s' =>
        match split_first p s' with
        | Some (a, b) => Some (String c a, b)
        | None => None
        end
    end.

(** [s.includes(p)]. *)
Definition includes (p s : string) : bool :=
  match split_first p s with Some _ => true | None => false end.

(** The number of positions of [s] at which [p] starts. *)
Fixpoint occurrences (p s : string) : nat :=
  (if starts_with p s then 1 else 0) +
  match s with
  | EmptyString => 0
  | String _ s' => occurrences p s'
  end.

(** ECMAScript's GetSubstitution for a pattern without capture groups: in the
    replacement text, [$$] stands for a dollar sign, [$&] for the matched text,
    [$`] for the text before the match and [$'] for the text after it; every
    other character, a dollar sign included, stands for itself. *)
Fixpoint get_substitution (matched before after rep : string) : string :=
  match rep with
  | EmptyString => EmptyString
  | String c r =>
      if Ascii.eqb c dollar then
        match r with
        | EmptyString => String c EmptyString
        | String d r' =>
            if Ascii.eqb d dollar then
              String dollar (get_substitution matched before after r')
            else if Ascii.eqb d ampersand then
              matched +:+ get_substitution matched before after r'
            else if Ascii.eqb d backtick then
              before +:+ get_substitution matched before after r'
            else if Ascii.eqb d squote then
              after +:+ get_substitution matched before after r'
            else String c (get_substitution matched before after r)
        end
      else String c (get_substitution matched before after r)
  end.

(** [s.replace(p, rep)] with a string pattern: the first occurrence only. *)
Definition replace (p rep s : string) : string :=
  match split_first p s with
  | None => s
  | Some (a, b) => a +:+ get_substitution p a b rep +:+ b
  end.

(** A decimal digit. *)
Definition digit (c : ascii) : bool :=
  let n := nat_of_ascii c in (48 <=? n) && (n <=? 57).

(** No dollar sign in [s]. *)
Fixpoint dollar_free (s : string) : bool :=
  match s with
  | EmptyString => true
  | String c s' => negb (Ascii.eqb c dollar) && dollar_free s'
  end.

End JS.

(** ** The version record

    [parseVersion] returns [{version, major, minor, patch, prerelease}]. The
    numeric fields are carried as the text the script splices into the
    templates; [prerelease] is [None] where the script sees [undefined]. *)

Record VersionRecord := {
  version : string;
  major : string;
  minor : string;
  patch : string;
  prerelease : option string;
}.

(** ** setSource: the four renderers *)

Definition tok_major : string := "${major}".
Definition tok_minor : string := "${minor}".
Definition tok_patch : string := "${patch}".
Definition tok_prerelease : string := "${prerelease}".

Definition placeholders : list string :=
  [tok_major; tok_minor; tok_patch; tok_prerelease].

Definition quoted (q : ascii) (p : string) : string :=
  String q (p +:+ String q EmptyString).

(** The literal each renderer writes for [prerelease]. *)
Definition java_prerelease (v : VersionRecord) : string :=
  match prerelease v with Some p => quoted JS.dquote p | None => "null" end.

Definition objc_prerelease (v : VersionRecord) : string :=
  match prerelease v with
  | Some p => String "@" (quoted JS.dquote p)
  | None => "[NSNull null]"
  end.

Definition cxx_prerelease (v : VersionRecord) : string :=
  match prerelease v with
  | Some p => quoted JS.dquote p
  | None => quoted JS.dquote EmptyString
  end.

Definition script_prerelease (v : VersionRecord) : string :=
  match prerelease v with Some p => quoted JS.squote p | None => "null" end.

(** [@(n)], the boxed number of the Objective-C file. *)
Definition boxed (n : string) : string := "@(" +:+ n +:+ ")".

(** The chain of four [.replace] calls of one [writeFileSync]: the three
    numbers first, the prerelease last. *)
Definition numbers (ma mi pa template : string) : string :=
  JS.replace tok_patch pa
    (JS.replace tok_minor mi
      (JS.replace tok_major ma template)).

Definition substitute (ma mi pa pre template : string) : string :=
  JS.replace tok_prerelease pre (numbers ma mi pa template).

Definition render_java (template : string) (v : VersionRecord) : string :=
  substitute (major v) (minor v) (patch v) (java_prerelease v) template.

Definition render_objc (template : string) (v : VersionRecord) : string :=
  substitute (boxed (major v)) (boxed (minor v)) (boxed (patch v))
    (objc_prerelease v) template.

Definition render_cxx (template : string) (v : VersionRecord) : string :=
  substitute (major v) (minor v) (patch v) (cxx_prerelease v) template.

Definition render_script (template : string) (v : VersionRecord) : string :=
  substitute (major v) (minor v) (patch v) (script_prerelease v) template.

(** ** Texts that cannot make a placeholder

    What the script puts in place of a placeholder: whether it can complete
    or start one on its own. *)

(** The suffixes of [s] that are not empty. *)
Fixpoint tails (s : string) : list string :=
  match s with
  | EmptyString => []
  | String _ s' => s :: tails s'
  end.

(** A placeholder less its dollar sign. *)
Definition inner (tok : string) : string := JS.slice_from 1 tok.

(** [q] and [v] differ at a position both have. *)
Fixpoint clash (q v : string) : bool :=
  match q, v with
  | String a q', String b v' => if Ascii.eqb a b then clash q' v' else true
  | _, _ => false
  end.

(** [v] has no dollar sign and does not go on from where a placeholder was
    cut off. *)
Definition inert (v : string) : bool :=
  JS.dollar_free v
  && forallb (λ tok, forallb (λ q, clash q v) (tails (inner tok))) placeholders.

Definition head_is (c : ascii) (q : string) : bool :=
  match q with
  | EmptyString => false
  | String a _ => Ascii.eqb a c
  end.

(** The characters of the placeholders, the dollar sign apart. *)
Definition token_char (c : ascii) : bool :=
  existsb (λ tok, existsb (head_is c) (tails (inner tok))) placeholders.

Fixpoint all_digits (s : string) : bool :=
  match s with
  | EmptyString => true
  | String c s' => JS.digit c && all_digits s'
  end.

(** A decimal numeral: one digit or more. *)
Definition numeral (s : string) : bool :=
  match s with
  | EmptyString => false
  | String _ _ => all_digits s
  end.

Definition dollar_free_opt (p : option string) : bool :=
  match p with Some p => JS.dollar_free p | None => true end.

(** ** JSON documents

    What [JSON.parse] returns. The members of an object are listed in the
    order JavaScript enumerates them; a number carries the text
    [JSON.stringify] prints for it. *)

#[warnings="-register-all"] Inductive JSON :=
| JNull
| JBool (b : bool)
| JNumber (text : string)
| JString (s : string)
| JArray (items : list JSON)
| JObject (members : list (string * JSON)).

(** [o[k]] on the members of an object. *)
Fixpoint obj_get (k : string) (o : list (string * JSON)) : option JSON :=
  match o with
  | [] => None
  | (k', x) :: o' => if decide (k = k') then Some x else obj_get k o'
  end.

(** [o[k] = x] for a key that is not an array index: an existing member keeps
    its place, a new one goes last. *)
Fixpoint obj_set (k : string) (x : JSON) (o : list (string * JSON))
  : list (string * JSON) :=
  match o with
  | [] => [(k, x)]
  | (k', y) :: o' =>
      if decide (k = k') then (k, x) :: o' else (k', y) :: obj_set k x o'
  end.

(** [JSON.stringify(j, null, 2)]. *)
Module Stringify.

Definition hex (n : nat) : ascii :=
  nth n (String.list_ascii_of_string "0123456789abcdef") "0"%char.

Definition escape (c : ascii) : string :=
  let n := nat_of_ascii c in
  if Ascii.eqb c JS.dquote then String "\" (String JS.dquote EmptyString)
  else if Ascii.eqb c "\" then "\\"
  else if n =? 8 then "\b"
  else if n =? 9 then "\t"
  else if n =? 10 then "\n"
  else if n =? 12 then "\f"
  else if n =? 13 then "\r"
  else if n <? 32 then
    "\u00" +:+ String (hex (n / 16)) (String (hex (n mod 16)) EmptyString)
  else String c EmptyString.

Fixpoint escape_all (s : string) : string :=
  match s with
  | EmptyString => EmptyString
  | String c s' => escape c +:+ escape_all s'
  end.

Definition quote (s : string) : string :=
  String JS.dquote (escape_all s +:+ String JS.dquote EmptyString).

Definition newline : string := String JS.LF EmptyString.

Definition block (opening closing indent : string) (rows : list string)
  : string :=
  match rows with
  | [] => opening +:+ closing
  | _ =>
      opening +:+ newline
      +:+ String.concat ("," +:+ newline) rows
      +:+ newline +:+ indent +:+ closing
  end.

Fixpoint value (indent : string) (j : JSON) : string :=
  match j with
  | JNull => "null"
  | JBool true => "true"
  | JBool false => "false"
  | JNumber text => text
  | JString s => quote s
  | JArray items =>
      block "[" "]" indent
        (map (fun x => indent +:+ "  " +:+ value (indent +:+ "  ") x) items)
  | JObject members =>
      block "{" "}" indent
        (map (fun kx =>
                indent +:+ "  " +:+ quote (fst kx) +:+ ": "
                +:+ value (indent +:+ "  ") (snd kx)) members)
  end.

End Stringify.

Definition JSON_stringify (j : JSON) : string := Stringify.value EmptyString j.

(** ** The world of the script and its effects *)

(** What the script can throw. [parseVersion] and [validateBuildType] throw
    the first three; [setGradle] throws the standard error text of [sed]
    (the spec's PropertiesUpdateError); [JSON.parse] throws a SyntaxError and
    strict-mode assignment to a property of a primitive a TypeError. *)
Inductive Failure :=
| InvalidBuildTypeError
| VersionFormatError
| BuildTypeMismatchError
| PropertiesUpdateError (stderr : string)
| JsonSyntaxError
| JsTypeError.

Inductive Outcome (A : Type) :=
| Returned (a : A)
| Thrown (e : Failure).

Arguments Returned {A} a.
Arguments Thrown {A} e.

(** [files]: the working directory, path to content. [scratch]: the temporary
    folders, each with the files copied into it. [stdout]: the lines echoed.
    [template_updates]: the arguments [updateTemplatePackage] was called with,
    latest last. *)
Record World := mkWorld {
  files : gmap string string;
  scratch : gmap string (gmap string string);
  stdout : list string;
  template_updates : list (gmap string string);
}.

Definition with_files (f : gmap string string) (w : World) : World :=
  mkWorld f (scratch w) (stdout w) (template_updates w).

Definition with_scratch (s : gmap string (gmap string string)) (w : World)
  : World :=
  mkWorld (files w) s (stdout w) (template_updates w).

Definition with_stdout (o : list string) (w : World) : World :=
  mkWorld (files w) (scratch w) o (template_updates w).

Definition with_template_updates (u : list (gmap string string)) (w : World)
  : World :=
  mkWorld (files w) (scratch w) (stdout w) u.

(** A computation of the script: it returns or throws, and leaves a world.
    What was written before a throw stays written. *)
Definition Script (A : Type) : Type := World → Outcome A * World.

#[global] Instance script_ret : MRet Script :=
  λ A a w, (Returned a, w).

#[global] Instance script_bind : MBind Script :=
  λ A B k c w,
    match c w with
    | (Returned a, w') => k a w'
    | (Thrown e, w') => (Thrown e, w')
    end.

Definition throw {A : Type} (e : Failure) : Script A :=
  λ w, (Thrown e, w).

(** shelljs [echo]. *)
Definition echo (line : string) : Script () :=
  λ w, (Returned (), with_stdout (stdout w ++ [line]) w).

(** shelljs [cat]: the content of the file, the empty string when there is no
    such file (the call reports the error on its result and does not throw). *)
Definition cat (path : string) : Script string :=
  λ w, (Returned (default EmptyString (files w !! path)), w).

(** [fs.writeFileSync(path, data, 'utf-8')]. Directories are not modelled:
    a write always succeeds. *)
Definition writeFileSync (path data : string) : Script () :=
  λ w, (Returned (), with_files (<[path := data]> (files w)) w).

(** ** setSource *)

Definition java_template : string :=
  "scripts/versiontemplates/ReactNativeVersion.java.template".
Definition objc_template : string :=
  "scripts/versiontemplates/RCTVersion.m.template".
Definition cxx_template : string :=
  "scripts/versiontemplates/ReactNativeVersion.h.template".
Definition script_template : string :=
  "scripts/versiontemplates/ReactNativeVersion.js.template".

Definition java_file : string :=
  "packages/react-native/ReactAndroid/src/main/java/com/facebook/react/modules/systeminfo/ReactNativeVersion.java".
Definition objc_file : string :=
  "packages/react-native/React/Base/RCTVersion.m".
Definition cxx_file : string :=
  "packages/react-native/ReactCommon/cxxreact/ReactNativeVersion.h".
Definition script_file : string :=
  "packages/react-native/Libraries/Core/ReactNativeVersion.js".

Definition setSource (v : VersionRecord) : Script () :=
  t ← cat java_template; writeFileSync java_file (render_java t v);;
  t ← cat objc_template; writeFileSync objc_file (render_objc t v);;
  t ← cat cxx_template; writeFileSync cxx_file (render_cxx t v);;
  t ← cat script_template; writeFileSync script_file (render_script t v).

(** What [cat] reads in a directory. *)
Definition content (cwd : gmap string string) (path : string) : string :=
  default EmptyString (cwd !! path).

(** The directory after [setSource]. *)
Definition source_files (v : VersionRecord) (cwd : gmap string string)
  : gmap string string :=
  <[script_file := render_script (content cwd script_template) v]>
    (<[cxx_file := render_cxx (content cwd cxx_template) v]>
       (<[objc_file := render_objc (content cwd objc_template) v]>
          (<[java_file := render_java (content cwd java_template) v]> cwd))).

(** ** setGradle *)

Definition gradle_properties : string :=
  "packages/react-native/ReactAndroid/gradle.properties".

(** What a shelljs command returns, as far as the script looks at it. *)
Record ShellResult := {
  code : nat;
  stderr : string;
}.

Module Sed.

(** [s.split('\n')]. *)
Fixpoint split_lines (s : string) : list string :=
  match s with
  | EmptyString => [EmptyString]
  | String c s' =>
      if Ascii.eqb c JS.LF then EmptyString :: split_lines s'
      else
        match split_lines s' with
        | [] => [String c EmptyString]
        | l :: ls => String c l :: ls
        end
  end.

(** [lines.join('\n')]. *)
Definition join_lines (lines : list string) : string :=
  String.concat (String JS.LF EmptyString) lines.

(** The dot of a JavaScript regular expression matches every code unit but a
    line terminator. *)
Definition line_terminator (c : ascii) : bool :=
  Ascii.eqb c JS.LF || Ascii.eqb c JS.CR.

(** What [.*] takes at the head of [s], and what it leaves. *)
Fixpoint dot_star (s : string) : string * string :=
  match s with
  | EmptyString => (EmptyString, EmptyString)
  | String c s' =>
      if line_terminator c then (EmptyString, s)
      else let '(m, rest) := dot_star s' in (String c m, rest)
  end.

Definition key : string := "VERSION_NAME=".

(** [/^VERSION_NAME=.*/.test(line)]. *)
Definition matches (line : string) : bool := JS.starts_with key line.

(** [line.replace(/^VERSION_NAME=.*/, replacement)]. *)
Definition replace_line (replacement line : string) : string :=
  if matches line then
    let '(m, rest) := dot_star (JS.slice_from (String.length key) line) in
    JS.get_substitution (key +:+ m) EmptyString rest replacement +:+ rest
  else line.

(** shelljs [sed('-i', /^VERSION_NAME=.*/, replacement, path)]: the file is
    read, split at newlines, every line goes through [replace], and the
    joined lines are written back. The only failure is a file that does not
    exist: then nothing is written and the result carries code 2. A file
    without a matching line is written back as it was, with code 0. *)
Definition in_place (replacement path : string) : Script ShellResult :=
  λ w,
    match files w !! path with
    | None =>
        (Returned {| code := 2;
                     stderr := "sed: no such file or directory: " +:+ path |},
         w)
    | Some contents =>
        (Returned {| code := 0; stderr := EmptyString |},
         with_files
           (<[path := join_lines
                        (map (replace_line replacement) (split_lines contents))]>
              (files w)) w)
    end.

End Sed.

Definition setGradle (v : VersionRecord) : Script () :=
  result ← Sed.in_place ("VERSION_NAME=" +:+ version v) gradle_properties;
  if decide (code result = 0) then mret ()
  else
    echo "Couldn't update version for Gradle";;
    throw (PropertiesUpdateError (stderr result)).

(** The properties file after [sed]. *)
Definition sed_text (v : VersionRecord) (contents : string) : string :=
  Sed.join_lines
    (map (Sed.replace_line ("VERSION_NAME=" +:+ version v))
       (Sed.split_lines contents)).

(** What [setGradle] throws. *)
Definition sed_failure : Failure :=
  PropertiesUpdateError
    ("sed: no such file or directory: " +:+ gradle_properties).

(** No line terminator in [s]. *)
Fixpoint no_CR (s : string) : bool :=
  match s with
  | EmptyString => true
  | String c s' => negb (Sed.line_terminator c) && no_CR s'
  end.

(** ** The manifests *)

Definition package_json : string := "packages/react-native/package.json".
Definition template_package_json : string :=
  "packages/react-native/template/package.json".

Definition filesToValidate : list string :=
  [package_json; gradle_properties; template_package_json].

(** The members of a manifest that hold dependencies. *)
Definition dependency_sections : list string :=
  ["dependencies"; "devDependencies"].

Definition override_members (overrides : gmap string string)
    (deps : list (string * JSON)) : list (string * JSON) :=
  map (λ kx, (kx.1, match overrides !! kx.1 with
                    | Some v => JString v
                    | None => kx.2
                    end)) deps.

(** One member of a manifest under the overrides. *)
Definition apply_member (overrides : gmap string string)
    (kx : string * JSON) : string * JSON :=
  match kx.2 with
  | JObject deps =>
      if bool_decide (kx.1 ∈ dependency_sections)
      then (kx.1, JObject (override_members overrides deps))
      else kx
  | _ => kx
  end.

(** Modelled from the spec: [applyPackageVersions] of ./npm-utils is not among
    the sources. Per the spec it is a pure merge that returns a new manifest:
    each key of the overrides that is present as a dependency field of the
    manifest has its value replaced, keys the manifest does not have are
    ignored. The dependency fields are taken to be the members of the
    manifest's [dependencies] and [devDependencies] objects. *)
Definition applyPackageVersions (manifest : JSON)
    (overrides : gmap string string) : JSON :=
  match manifest with
  | JObject members => JObject (map (apply_member overrides) members)
  | _ => manifest
  end.

(** The dependency field [name] of [section] in a manifest. *)
Definition dependency_field (manifest : JSON) (section name : string)
  : option JSON :=
  match manifest with
  | JObject members =>
      match obj_get section members with
      | Some (JObject deps) => obj_get name deps
      | _ => None
      end
  | _ => None
  end.

(** A top-level member of a manifest. *)
Definition field (manifest : JSON) (k : string) : option JSON :=
  match manifest with
  | JObject members => obj_get k members
  | _ => None
  end.

(** [packageJson.version = version] in strict mode, as [JSON.stringify] will
    see the result: an object gets the member, an array keeps its items (the
    property is not an index), [null] and the primitives throw a TypeError. *)
Definition assign_version (doc : JSON) (v : string) : option JSON :=
  match doc with
  | JObject members => Some (JObject (obj_set "version" (JString v) members))
  | JArray items => Some (JArray items)
  | _ => None
  end.

(** [{'react-native': version, ...(dependencyVersions != null ?
    dependencyVersions : {})}]: the spread comes second, so its entries win. *)
Definition templateDependencyVersions (v : VersionRecord)
    (dependencyVersions : option (gmap string string)) : gmap string string :=
  default ∅ dependencyVersions ∪ {[ "react-native" := version v ]}.

(** ** The shell pipeline of the validation

    [diff -r tmp . | grep '^[>]' | grep -c version], on text files. *)

Module Shell.

(** The lines of a file as diff compares them: each with its newline, the
    last one without when the file does not end in one. *)
Fixpoint text_lines (s : string) : list string :=
  match s with
  | EmptyString => []
  | String c s' =>
      if Ascii.eqb c JS.LF then String c EmptyString :: text_lines s'
      else
        match text_lines s' with
        | [] => [String c EmptyString]
        | l :: ls => String c l :: ls
        end
  end.

(** A line without its newline. *)
Fixpoint chomp (l : string) : string :=
  match l with
  | EmptyString => EmptyString
  | String c l' => if Ascii.eqb c JS.LF then EmptyString else String c (chomp l')
  end.

(** The lines of [new] that a shortest edit script from [old] to [new] adds.
    Where several scripts are shortest the model deletes first. *)
Fixpoint diff_added (old new : list string) : list string :=
  match old with
  | [] => new
  | o :: old' =>
      (fix against (new : list string) : list string :=
         match new with
         | [] => []
         | n :: new' =>
             if String.eqb o n then diff_added old' new'
             else
               let deleted := diff_added old' (n :: new') in
               let added := n :: against new' in
               if length deleted <=? length added then deleted else added
         end) new
  end.

(** The output of [diff -r tmp .], less the lines that do not begin with [>]:
    every file of the folder that the working directory also has is compared,
    and each added line is printed after [> ]. (The other lines diff prints,
    the hunk headers, the [<] lines, the separators and the notes on files of
    one side only, begin with another character.) *)
Definition diff_r (tmp cwd : gmap string string) : list string :=
  flat_map
    (λ entry,
       match cwd !! entry.1 with
       | Some new =>
           map (λ l, "> " +:+ chomp l)
             (diff_added (text_lines entry.2) (text_lines new))
       | None => []
       end)
    (map_to_list tmp).

(** [grep '^[>]']. *)
Definition grep_gt (lines : list string) : list string :=
  filter (λ l, JS.starts_with ">" l = true) lines.

(** A basic regular expression made of letters, digits, hyphens and dots,
    matched at the head of [s]: a dot takes any character, the others take
    themselves. *)
Fixpoint match_here (pattern s : string) : bool :=
  match pattern, s with
  | EmptyString, _ => true
  | String _ _, EmptyString => false
  | String p pattern', String c s' =>
      (Ascii.eqb p "." || Ascii.eqb p c) && match_here pattern' s'
  end.

(** Whether grep selects the line: the pattern matches somewhere in it. *)
Fixpoint selects (pattern line : string) : bool :=
  match_here pattern line
  || match line with
     | EmptyString => false
     | String _ line' => selects pattern line'
     end.

(** [grep -c pattern]. *)
Definition grep_c (pattern : string) (lines : list string) : nat :=
  length (filter (λ l, selects pattern l = true) lines).




(** The decimal numeral [grep -c] prints. *)
Definition decimal (n : nat) : string :=
  NilEmpty.string_of_uint (Nat.to_uint n).

(** The standard output of the pipeline run by [exec]. *)
Definition pipeline (tmp cwd : gmap string string) (pattern : string)
  : string :=
  decimal (grep_c pattern (grep_gt (diff_r tmp cwd)))
  +:+ String JS.LF EmptyString.

End Shell.

Module Number.

(** ECMAScript's white space and line terminators, among one-byte code
    units. *)
Definition white (c : ascii) : bool :=
  let n := nat_of_ascii c in
  ((9 <=? n) && (n <=? 13)) || (n =? 32) || (n =? 160).

Fixpoint trim_start (s : string) : string :=
  match s with
  | EmptyString => EmptyString
  | String c s' => if white c then trim_start s' else s
  end.

Fixpoint trim_end (s : string) : string :=
  match s with
  | EmptyString => EmptyString
  | String c s' =>
      match trim_end s' with
      | EmptyString => if white c then EmptyString else String c EmptyString
      | t => String c t
      end
  end.

(** [s.trim()]. *)
Definition trim (s : string) : string := trim_end (trim_start s).

(** [+s] for the strings [grep -c] can print: a decimal numeral has its
    value and a blank string is 0. [None] is NaN; the other numeric literals
    of JavaScript (signs, fractions, exponents, other radixes) are left out
    and fall under [None] here. *)
Definition of_string (s : string) : option nat :=
  Nat.of_uint <$> NilEmpty.uint_of_string (trim s).

(** No white space in [s]. *)
Fixpoint no_white (s : string) : bool :=
  match s with
  | EmptyString => true
  | String c s' => negb (white c) && no_white s'
  end.

End Number.

(** ** The script *)

Inductive ExitStatus :=
| Exit (status : nat)
| Uncaught (e : Failure).

Definition lift {A : Type} (o : Outcome A) : Script A := λ w, (o, w).

Section Script.

(** [JSON.parse]: [None] where it throws. *)
Variable JSON_parse : string → option JSON.

(** [validateBuildType] and [parseVersion] of ./version-utils, which is not
    among the sources: any two functions without effects, as the spec has
    them. *)
Variable validateBuildType : string → Outcome ().
Variable parseVersion : string → string → Outcome VersionRecord.

(** The name [fs.mkdtempSync] hands out. *)
Variable tmpdir : string.

Definition setPackage (v : VersionRecord)
    (dependencyVersions : option (gmap string string)) : Script () :=
  text ← cat package_json;
  match JSON_parse text with
  | None => throw JsonSyntaxError
  | Some originalPackageJson =>
      let packageJson :=
        match dependencyVersions with
        | Some overrides => applyPackageVersions originalPackageJson overrides
        | None => originalPackageJson
        end in
      match assign_version packageJson (version v) with
      | None => throw JsTypeError
      | Some packageJson' =>
          writeFileSync package_json (JSON_stringify packageJson')
      end
  end.

(** [fs.mkdtempSync]: a new, empty folder. *)
Definition mkdtempSync : Script string :=
  λ w, (Returned tmpdir, with_scratch (<[tmpdir := ∅]> (scratch w)) w).

(** Modelled from the spec: [saveFiles] of ./scm-utils is not among the
    sources. Per the spec it copies the fixed verification subset into the
    folder and returns nothing; a file of the subset that does not exist is
    not copied. *)
Definition saveFiles (tmpFolder : string) : Script () :=
  λ w,
    (Returned (),
     with_scratch
       (<[tmpFolder :=
            filter (λ entry, entry.1 ∈ filesToValidate) (files w)
            ∪ default ∅ (scratch w !! tmpFolder)]> (scratch w)) w).

(** Modelled from the spec: [updateTemplatePackage] of
    ./update-template-package is not among the sources. Per the spec it
    writes the template manifest from the version map it is given and returns
    nothing; the map is applied as [applyPackageVersions] does. The call is
    recorded in [template_updates]. *)
Definition updateTemplatePackage (versions : gmap string string) : Script () :=
  λ w,
    (text ← cat template_package_json;
     match JSON_parse text with
     | None => throw JsonSyntaxError
     | Some manifest =>
         writeFileSync template_package_json
           (JSON_stringify (applyPackageVersions manifest versions))
     end)
      (with_template_updates (template_updates w ++ [versions]) w).

(** [exec(`diff -r ${tmp} . | grep '^[>]' | grep -c ${version} `,
    {silent: true}).stdout]. *)
Definition exec_diff_grep (tmpFolder pattern : string) : Script string :=
  λ w,
    (Returned
       (Shell.pipeline (default ∅ (scratch w !! tmpFolder)) (files w) pattern),
     w).

Definition warning (v : VersionRecord) : list string :=
  ["WARNING:";
   "Failed to update all the files: ["
   +:+ String.concat ", " filesToValidate
   +:+ "] must have versions in them";
   "These files already had version " +:+ version v +:+ " set."].

(** The four writes of the script, in its order. *)
Definition writeVersion (v : VersionRecord)
    (dependencyVersions : option (gmap string string)) : Script () :=
  setSource v;;
  setPackage v dependencyVersions;;
  updateTemplatePackage (templateDependencyVersions v dependencyVersions);;
  setGradle v.

(** The validation that ends the script. *)
Definition validateChanges (v : VersionRecord) (tmpVersioningFolder : string)
  : Script () :=
  out ← exec_diff_grep tmpVersioningFolder (version v);
  let numberOfChangedLinesWithNewVersion := Number.trim out in
  if decide (Number.of_string numberOfChangedLinesWithNewVersion
             = Some (length filesToValidate))
  then mret ()
  else
    echo "WARNING:";;
    echo ("Failed to update all the files: ["
          +:+ String.concat ", " filesToValidate
          +:+ "] must have versions in them");;
    echo ("These files already had version " +:+ version v +:+ " set.").

Definition setReactNativeVersion (argVersion : string)
    (dependencyVersions : option (gmap string string)) (buildType : string)
  : Script () :=
  lift (validateBuildType buildType);;
  v ← lift (parseVersion argVersion buildType);
  tmpVersioningFolder ← mkdtempSync;
  echo ("The tmp versioning folder is " +:+ tmpVersioningFolder);;
  saveFiles tmpVersioningFolder;;
  writeVersion v dependencyVersions;;
  validateChanges v tmpVersioningFolder.

(** Two stretches of [setReactNativeVersion], named for the statements
    below: the script from [mkdtempSync] up to [setGradle], and up to the
    validation. Both return the name of the temporary folder. *)
Definition beforeGradle (v : VersionRecord)
    (dependencyVersions : option (gmap string string)) : Script string :=
  tmpVersioningFolder ← mkdtempSync;
  echo ("The tmp versioning folder is " +:+ tmpVersioningFolder);;
  saveFiles tmpVersioningFolder;;
  setSource v;;
  setPackage v dependencyVersions;;
  updateTemplatePackage (templateDependencyVersions v dependencyVersions);;
  mret tmpVersioningFolder.

Definition changes (v : VersionRecord)
    (dependencyVersions : option (gmap string string)) : Script string :=
  tmpVersioningFolder ← beforeGradle v dependencyVersions;
  setGradle v;;
  mret tmpVersioningFolder.

(** The script run from the command line, once yargs has read the options:
    [setReactNativeVersion(...)] and then [exit(0)]. A throw is not caught. *)
Definition main (toVersion : string)
    (dependencyVersions : option (gmap string string)) (buildType : string)
    (w : World) : ExitStatus * World :=
  match setReactNativeVersion toVersion dependencyVersions buildType w with
  | (Returned _, w') => (Exit 0, w')
  | (Thrown e, w') => (Uncaught e, w')
  end.

End Script.

(** The copy [saveFiles] takes of a working directory. *)
Definition snapshot (cwd : gmap string string) : gmap string string :=
  filter (λ entry, entry.1 ∈ filesToValidate) cwd.

(** The changed lines the validation looks at, each after [> ]. *)
Definition changed_lines (tmp cwd : gmap string string) : list string :=
  Shell.grep_gt (Shell.diff_r tmp cwd).

(** How many of them grep selects for the version, and how many contain it. *)
Definition matching (v : VersionRecord) (tmp cwd : gmap string string) : nat :=
  Shell.grep_c (version v) (changed_lines tmp cwd).


(** ** ./version-utils, from the spec *)

Module VersionUtils.

Definition buildTypes : list string := ["dry-run"; "nightly"; "release"].

(** Modelled from the spec: [validateBuildType] of ./version-utils is not
    among the sources. Per the spec it fails with InvalidBuildTypeError when
    the build type is not one of the three enumerated values. *)
Definition validateBuildType (buildType : string) : Outcome () :=
  if bool_decide (buildType ∈ buildTypes) then Returned ()
  else Thrown InvalidBuildTypeError.

(** The digits at the head of [s], and the rest. *)
Fixpoint digits (s : string) : string * string :=
  match s with
  | EmptyString => (EmptyString, EmptyString)
  | String c s' =>
      if JS.digit c then let '(d, rest) := digits s' in (String c d, rest)
      else (EmptyString, s)
  end.

(** One numeric component followed by [sep]. *)
Definition component (sep : ascii) (s : string) : option (string * string) :=
  match digits s with
  | (String c d, String c' rest) =>
      if Ascii.eqb c' sep then Some (String c d, rest) else None
  | _ => None
  end.

(** The acceptance rule per build type, which the spec leaves to the
    implementer: a release carries no prerelease, a nightly carries one,
    a dry run may have either. *)
Definition accepted (buildType : string) (v : VersionRecord) : bool :=
  if decide (buildType = "release") then bool_decide (prerelease v = None)
  else if decide (buildType = "nightly") then
    bool_decide (prerelease v ≠ None)
  else true.

(** Modelled from the spec: [parseVersion] of ./version-utils is not among
    the sources. Per the spec it reads MAJOR.MINOR.PATCH[-PRERELEASE], digits
    for each numeric component, fails with VersionFormatError when the text
    does not match and with BuildTypeMismatchError when the build type does
    not accept the shape; it has no effects. *)
Definition parseVersion (raw buildType : string) : Outcome VersionRecord :=
  match component "." raw with
  | None => Thrown VersionFormatError
  | Some (ma, s1) =>
      match component "." s1 with
      | None => Thrown VersionFormatError
      | Some (mi, s2) =>
          let '(pa, s3) := digits s2 in
          let pre :=
            match s3 with
            | EmptyString => Some None
            | String c p =>
                if Ascii.eqb c "-" && negb (String.eqb p EmptyString)
                then Some (Some p) else None
            end in
          match pa, pre with
          | String _ _, Some p =>
              let v := {| version := raw; major := ma; minor := mi;
                          patch := pa; prerelease := p |} in
              if accepted buildType v then Returned v
              else Thrown BuildTypeMismatchError
          | _, _ => Thrown VersionFormatError
          end
      end
  end.

End VersionUtils.

(** ** Versions and directories for the examples *)

Definition v0750 : VersionRecord :=
  {| version := "0.75.0"; major := "0"; minor := "75"; patch := "0";
     prerelease := None |}.

Definition v0750rc : VersionRecord :=
  {| version := "0.75.0-rc.1"; major := "0"; minor := "75"; patch := "0";
     prerelease := Some "rc.1" |}.


Definition once_template : string :=
  "major = ${major}, minor = ${minor}, patch = ${patch}, prerelease = ${prerelease};".

(** ** A working directory for the scenarios of the spec *)

Module Scenario.

Definition nl : string := Stringify.newline.

Definition text (lines : list string) : string :=
  String.concat nl lines +:+ nl.

Definition package_doc : JSON :=
  JObject [("name", JString "react-native");
           ("version", JString "1000.0.0");
           ("dependencies",
            JObject [("some-lib", JString "1.0.0");
                     ("other-lib", JString "3.1.4")])].

Definition template_doc : JSON :=
  JObject [("name", JString "HelloWorld");
           ("version", JString "0.0.1");
           ("dependencies",
            JObject [("react", JString "18.2.0");
                     ("react-native", JString "1000.0.0")])].

Definition package_text : string := JSON_stringify package_doc +:+ nl.
Definition template_text : string := JSON_stringify template_doc +:+ nl.

(** [JSON.parse] on the two manifests of the scenarios, which parse nothing
    else. *)
Definition JSON_parse (s : string) : option JSON :=
  if decide (s = package_text) then Some package_doc
  else if decide (s = template_text) then Some template_doc
  else None.

Definition gradle_text : string :=
  text ["VERSION_NAME=1000.0.0"; "GROUP=com.facebook.react"].

Definition tmpdir : string := "/tmp/rn-set-versionAbCdEf".

Definition cwd : gmap string string :=
  list_to_map
    [(java_template,
      text ["major = ${major}, minor = ${minor},"; "patch = ${patch}, prerelease = ${prerelease}"]);
     (objc_template,
      text ["RCTVersionMajor: ${major},"; "RCTVersionMinor: ${minor},";
            "RCTVersionPatch: ${patch},"; "RCTVersionPrerelease: ${prerelease},"]);
     (cxx_template,
      text ["int32_t Major = ${major};"; "int32_t Minor = ${minor};";
            "int32_t Patch = ${patch};"; "std::string_view Prerelease = ${prerelease};"]);
     (script_template,
      text ["major: ${major},"; "minor: ${minor},"; "patch: ${patch},";
            "prerelease: ${prerelease},"]);
     (package_json, package_text);
     (template_package_json, template_text);
     (gradle_properties, gradle_text)].

Definition world : World :=
  {| files := cwd; scratch := ∅; stdout := []; template_updates := [] |}.

Definition run (toVersion : string)
    (dependencyVersions : option (gmap string string)) (buildType : string)
    (w : World) : ExitStatus * World :=
  main JSON_parse VersionUtils.validateBuildType VersionUtils.parseVersion
    tmpdir toVersion dependencyVersions buildType w.

Definition tmp_line : string := "The tmp versioning folder is " +:+ tmpdir.


Definition some_lib_overrides : gmap string string :=
  {[ "some-lib" := "2.0.0" ]}.

Definition own_overrides : gmap string string :=
  {[ "react-native" := "0.64.1" ]}.

(** The directory with a properties file that has no VERSION_NAME line. *)
Definition bare_gradle_text : string := text ["GROUP=com.facebook.react"].

Definition bare_world : World :=
  with_files (<[gradle_properties := bare_gradle_text]> cwd) world.

End Scenario.

(** ** Shapes and frames

    Names for the statements of the further facts below. *)

(** A template in the shape of the shipped ones: the four placeholders once
    each, in the order of the replacements. *)
Definition shaped (a b c d e : string) : string :=
  a +:+ tok_major +:+ b +:+ tok_minor +:+ c +:+ tok_patch +:+ d
  +:+ tok_prerelease +:+ e.

(** The files [setSource] writes, each with its template and renderer. *)
Definition source_targets
  : list (string * string * (string → VersionRecord → string)) :=
  [(java_template, java_file, render_java);
   (objc_template, objc_file, render_objc);
   (cxx_template, cxx_file, render_cxx);
   (script_template, script_file, render_script)].

Definition source_outputs : list string :=
  [java_file; objc_file; cxx_file; script_file].

(** No newline in [s]. *)
Fixpoint no_LF (s : string) : bool :=
  match s with
  | EmptyString => true
  | String c s' => negb (Ascii.eqb c JS.LF) && no_LF s'
  end.

(** The names of the members of an object, in order. *)
Definition keys (o : list (string * JSON)) : list string := map fst o.

(** The directory of the scenarios without its package manifest. *)
Definition unreadable_world : World :=
  with_files (delete package_json Scenario.cwd) Scenario.world.

(** The files the script writes. *)
Definition targets : list string := source_outputs ++ filesToValidate.

(** A computation that leaves every file outside [S] as it was. *)
Definition keeps_outside (S : list string) {A : Type} (c : Script A) : Prop :=
  ∀ w r w', c w = (r, w') → ∀ p, p ∉ S → files w' !! p = files w !! p.

(** * Facts *)

#[local] Arguments String.append !s1 s2 / : simpl nomatch.

(** ** Examples *)

Example render_java_ex :
  render_java "a ${major}.${minor}.${patch} ${prerelease};" v0750
  = "a 0.75.0 null;".
Proof. reflexivity. Qed.

Example render_objc_ex :
  render_objc "${major} ${minor} ${patch} ${prerelease}" v0750rc
  = "@(0) @(75) @(0) @" +:+ quoted JS.dquote "rc.1".
Proof. reflexivity. Qed.

Example render_twice_ex :
  render_script "${major} ${major}" v0750 = "0 ${major}".
Proof. reflexivity. Qed.

Example stringify_ex :
  JSON_stringify
    (JObject [("name", JString "react-native"); ("version", JString "1000.0.0");
              ("dependencies", JObject [("some-lib", JString "1.0.0")]);
              ("files", JArray []); ("private", JBool false)])
  = String.concat Stringify.newline
      ["{";
       "  " +:+ Stringify.quote "name" +:+ ": " +:+ Stringify.quote "react-native" +:+ ",";
       "  " +:+ Stringify.quote "version" +:+ ": " +:+ Stringify.quote "1000.0.0" +:+ ",";
       "  " +:+ Stringify.quote "dependencies" +:+ ": {";
       "    " +:+ Stringify.quote "some-lib" +:+ ": " +:+ Stringify.quote "1.0.0";
       "  },";
       "  " +:+ Stringify.quote "files" +:+ ": [],";
       "  " +:+ Stringify.quote "private" +:+ ": false";
       "}"].
Proof. reflexivity. Qed.

Example text_lines_ex :
  Shell.text_lines ("a" +:+ Stringify.newline +:+ "b")
  = ["a" +:+ Stringify.newline; "b"].
Proof. reflexivity. Qed.

Example diff_added_ex : Shell.diff_added ["a"; "b"; "c"] ["a"; "x"; "c"; "d"] = ["x"; "d"].
Proof. reflexivity. Qed.

Example selects_ex : Shell.selects "0.75.0" "> VERSION_NAME=0x75y0" = true.
Proof. reflexivity. Qed.

Example of_string_ex : Number.of_string (Shell.decimal 3 +:+ Stringify.newline) = Some 3.
Proof. reflexivity. Qed.

Example parseVersion_ex :
  VersionUtils.parseVersion "0.75.0" "dry-run" = Returned v0750.
Proof. reflexivity. Qed.

Example parseVersion_rc_ex :
  VersionUtils.parseVersion "0.75.0-rc.1" "dry-run" = Returned v0750rc.
Proof. reflexivity. Qed.

Example parseVersion_short_ex :
  VersionUtils.parseVersion "1.2" "dry-run" = Thrown VersionFormatError.
Proof. reflexivity. Qed.

Example parseVersion_long_ex :
  VersionUtils.parseVersion "1.2.3.4" "dry-run" = Thrown VersionFormatError.
Proof. reflexivity. Qed.

Example parseVersion_release_ex :
  VersionUtils.parseVersion "0.75.0-nightly" "release"
  = Thrown BuildTypeMismatchError.
Proof. reflexivity. Qed.

(** ** Strings *)

Lemma append_assoc (a b c : string) : (a +:+ b) +:+ c = a +:+ b +:+ c.
Proof. induction a as [|x a IH]; simpl; [done | by rewrite IH]. Qed.

Lemma eqb_false_ne (a b : ascii) : a ≠ b → Ascii.eqb a b = false.
Proof. intros H. by apply Ascii.eqb_neq. Qed.

(** split_first *)
Lemma starts_with_app (p b : string) : JS.starts_with p (p +:+ b) = true.
Proof. induction p as [|x p IH]; simpl; [done|]. by rewrite Ascii.eqb_refl. Qed.

Lemma starts_with_split (p s : string) :
  JS.starts_with p s = true → s = p +:+ JS.slice_from (String.length p) s.
Proof.
  revert s. induction p as [|x p IH]; intros s; simpl; [done|].
  destruct s as [|y s]; [done|].
  intros [Hxy Hp]%andb_true_iff. apply Ascii.eqb_eq in Hxy as ->.
  f_equal. by apply IH.
Qed.

Lemma split_first_Some (p s a b : string) :
  JS.split_first p s = Some (a, b) → s = a +:+ p +:+ b.
Proof.
  revert a. induction s as [|c s IH]; intros a; simpl.
  - destruct (JS.starts_with p EmptyString) eqn:E; [|done].
    intros [= <- <-]. by apply starts_with_split in E.
  - destruct (JS.starts_with p (String c s)) eqn:E.
    + intros [= <- <-]. by apply starts_with_split in E.
    + destruct (JS.split_first p s) as [[a' b']|] eqn:F; [|done].
      intros [= <- <-]. simpl. f_equal. by apply IH.
Qed.

(** No occurrence of [p] starts in the text [split_first] leaves before the
    one it finds. *)
Lemma split_first_earliest (p s a b a1 a2 : string) (c : ascii) :
  JS.split_first p s = Some (a, b) → a = a1 +:+ String c a2 →
  JS.starts_with p (String c a2 +:+ p +:+ b) = false.
Proof.
  revert a a1. induction s as [|x s IH]; intros a a1; simpl.
  - destruct (JS.starts_with p EmptyString); [|done].
    intros [= <- _]. by destruct a1.
  - destruct (JS.starts_with p (String x s)) eqn:E.
    + intros [= <- _]. by destruct a1.
    + destruct (JS.split_first p s) as [[a' b']|] eqn:F; [|done].
      intros [= <- <-]. destruct a1 as [|y a1]; simpl.
      * intros [= -> ->]. apply split_first_Some in F as ->. exact E.
      * intros [= -> ->]. by apply (IH _ a1 eq_refl eq_refl).
Qed.

Lemma occurrences_split_first_None (p s : string) :
  JS.split_first p s = None ↔ JS.occurrences p s = 0.
Proof.
  induction s as [|c s IH]; simpl.
  - destruct (JS.starts_with p EmptyString); split; (done || lia).
  - destruct (JS.starts_with p (String c s)).
    + split; (done || lia).
    + destruct (JS.split_first p s) as [[a b]|].
      * split; [done|]. intros H. simpl in H. apply IH in H. done.
      * split; [|done]. intros _. simpl. by apply IH.
Qed.

Lemma dollar_free_substitution (m a b r : string) :
  JS.dollar_free r = true → JS.get_substitution m a b r = r.
Proof.
  induction r as [|c r IH]; simpl; [done|].
  intros [Hc Hr]%andb_true_iff. apply negb_true_iff in Hc. rewrite Hc.
  by rewrite IH.
Qed.

Lemma dollar_free_app (a b : string) :
  JS.dollar_free (a +:+ b) = JS.dollar_free a && JS.dollar_free b.
Proof. induction a as [|c a IH]; simpl; [done|]. by rewrite IH, andb_assoc. Qed.

(** ** Occurrences of the placeholders *)

Lemma clash_starts_with (q v b : string) :
  clash q v = true → JS.starts_with q (v +:+ b) = false.
Proof.
  revert v. induction q as [|a q IH]; intros [|c v]; simpl; try done.
  destruct (Ascii.eqb a c); [|done]. intros H. by rewrite IH.
Qed.

Lemma tails_dollar_free (s q : string) :
  JS.dollar_free s = true → q ∈ tails s →
  ∃ a q', q = String a q' ∧ Ascii.eqb a JS.dollar = false.
Proof.
  induction s as [|c s IH]; simpl; [by intros _ ?%elem_of_nil|].
  intros [Hc Hs]%andb_true_iff [-> | Hq]%elem_of_cons; [|by apply IH].
  exists c, s. split; [done|]. by apply negb_true_iff.
Qed.

Lemma tails_tail (a : ascii) (q q' : string) :
  q' ∈ tails q → q' ∈ tails (String a q).
Proof. simpl. by right. Qed.

Lemma tails_self (a : ascii) (q : string) : String a q ∈ tails (String a q).
Proof. simpl. by left. Qed.

(** A text in front of two continuations: whether [q] starts the whole
    depends on the continuation only through the tails of [q]. *)
Lemma starts_with_bridge (q a X1 X2 : string) :
  (∀ q', q' ∈ tails q → JS.starts_with q' X1 = false) →
  (∀ q', q' ∈ tails q → JS.starts_with q' X2 = false) →
  JS.starts_with q (a +:+ X1) = JS.starts_with q (a +:+ X2).
Proof.
  revert q. induction a as [|c a IH]; intros q H1 H2; simpl.
  - destruct q as [|u q]; [by destruct X1, X2|].
    by rewrite H1, H2 by apply tails_self.
  - destruct q as [|u q]; [done|]. simpl. f_equal.
    apply IH; intros q' Hq'; [apply H1 | apply H2]; by apply tails_tail.
Qed.

Lemma occurrences_skip (tok x s : string) :
  JS.dollar_free x = true →
  JS.occurrences (String JS.dollar tok) (x +:+ s)
  = JS.occurrences (String JS.dollar tok) s.
Proof.
  induction x as [|c x IH]; [done|].
  intros [Hc Hx]%andb_true_iff. apply negb_true_iff in Hc.
  change (String c x +:+ s) with (String c (x +:+ s)).
  cbn [JS.occurrences JS.starts_with].
  rewrite Ascii.eqb_sym, Hc. simpl. by apply IH.
Qed.

Ltac each_token H :=
  unfold placeholders in H;
  repeat (apply elem_of_cons in H as [-> | H]);
  [ .. | by apply elem_of_nil in H ].

Lemma token_shape (tok : string) :
  tok ∈ placeholders →
  tok = String JS.dollar (inner tok) ∧ JS.dollar_free (inner tok) = true.
Proof. intros H. each_token H; by vm_compute. Qed.

Lemma token_head (U T b : string) :
  U ∈ placeholders → T ∈ placeholders →
  JS.starts_with U (T +:+ b) = bool_decide (U = T).
Proof.
  intros HU HT. each_token HU; each_token HT; vm_compute; reflexivity.
Qed.

Lemma inert_dollar_free (v : string) : inert v = true → JS.dollar_free v = true.
Proof. unfold inert. by intros [? _]%andb_true_iff. Qed.

Lemma inert_clash (v U q : string) :
  inert v = true → U ∈ placeholders → q ∈ tails (inner U) → clash q v = true.
Proof.
  unfold inert. intros [_ H]%andb_true_iff HU Hq.
  rewrite forallb_forall in H. apply list_elem_of_In in HU.
  specialize (H U HU). rewrite forallb_forall in H. apply H.
  by apply list_elem_of_In.
Qed.

Lemma occurrences_replaced_shape (u t v a b : string) (k : bool) :
  JS.dollar_free u = true → JS.dollar_free t = true →
  JS.dollar_free v = true →
  (∀ q, q ∈ tails u → clash q v = true) →
  JS.starts_with (String JS.dollar u) (String JS.dollar (t +:+ b)) = k →
  JS.occurrences (String JS.dollar u) (a +:+ v +:+ b) + (if k then 1 else 0)
  = JS.occurrences (String JS.dollar u) (a +:+ String JS.dollar t +:+ b).
Proof.
  intros Fu Ft Fv Hq Hk. induction a as [|c a IH].
  - change (EmptyString +:+ ?x) with x.
    rewrite occurrences_skip by done.
    change (String JS.dollar t +:+ b) with (String JS.dollar (t +:+ b)).
    cbn [JS.occurrences]. rewrite Hk, occurrences_skip by done.
    destruct k; lia.
  - change (String c a +:+ ?x) with (String c (a +:+ x)).
    cbn [JS.occurrences]. rewrite <- IH.
    assert (JS.starts_with (String JS.dollar u) (String c (a +:+ v +:+ b))
            = JS.starts_with (String JS.dollar u)
                (String c (a +:+ String JS.dollar t +:+ b))) as ->; [|lia].
    cbn [JS.starts_with]. f_equal.
    apply starts_with_bridge; intros q Hq'.
    + apply clash_starts_with. by apply Hq.
    + destruct (tails_dollar_free _ _ Fu Hq') as (x & q' & -> & Hx).
      simpl. by rewrite Hx.
Qed.

(** Replacing one occurrence of the token [T] by an inert text takes that
    occurrence away and leaves the occurrences of every token as they
    were. *)
Lemma occurrences_replaced (U T v a b : string) :
  U ∈ placeholders → T ∈ placeholders → inert v = true →
  JS.occurrences U (a +:+ v +:+ b) + (if bool_decide (U = T) then 1 else 0)
  = JS.occurrences U (a +:+ T +:+ b).
Proof.
  intros HU HT Hv.
  pose proof (token_head U T b HU HT) as Hh.
  pose proof (λ q, inert_clash v U q Hv HU) as Hq.
  destruct (token_shape U HU) as [EU FU], (token_shape T HT) as [ET FT].
  revert Hh Hq EU FU ET FT.
  generalize (inner U) (inner T). intros u t Hh Hq -> FU -> FT.
  apply occurrences_replaced_shape; try done. by apply inert_dollar_free.
Qed.

Lemma replace_occurrences (U T v s : string) :
  U ∈ placeholders → T ∈ placeholders → inert v = true →
  JS.occurrences U (JS.replace T v s)
  = if bool_decide (U = T) then pred (JS.occurrences U s)
    else JS.occurrences U s.
Proof.
  intros HU HT Hv. unfold JS.replace.
  destruct (JS.split_first T s) as [[a b]|] eqn:E.
  - rewrite dollar_free_substitution by by apply inert_dollar_free.
    apply split_first_Some in E as ->.
    pose proof (occurrences_replaced U T v a b HU HT Hv).
    destruct (bool_decide (U = T)); lia.
  - case_bool_decide as HUT; [|done]. subst U.
    apply occurrences_split_first_None in E. by rewrite E.
Qed.

Lemma replace_keeps (U T v s : string) :
  U ∈ placeholders → T ∈ placeholders → inert v = true →
  JS.occurrences U (JS.replace T v s) ≤ JS.occurrences U s.
Proof.
  intros HU HT Hv. rewrite replace_occurrences by done.
  destruct (bool_decide (U = T)); lia.
Qed.

Lemma replace_clears (T v s : string) :
  T ∈ placeholders → inert v = true → JS.occurrences T s ≤ 1 →
  JS.occurrences T (JS.replace T v s) = 0.
Proof.
  intros HT Hv H. rewrite replace_occurrences by done.
  rewrite bool_decide_true by done. lia.
Qed.

Lemma tok_major_in : tok_major ∈ placeholders.
Proof. unfold placeholders. set_solver. Qed.
Lemma tok_minor_in : tok_minor ∈ placeholders.
Proof. unfold placeholders. set_solver. Qed.
Lemma tok_patch_in : tok_patch ∈ placeholders.
Proof. unfold placeholders. set_solver. Qed.
Lemma tok_prerelease_in : tok_prerelease ∈ placeholders.
Proof. unfold placeholders. set_solver. Qed.

Create HintDb tokens.
#[local] Hint Resolve tok_major_in tok_minor_in tok_patch_in tok_prerelease_in
  : tokens.

(** The four replacements in a row leave no placeholder where each occurred
    at most once and the texts put in are inert. *)
Lemma substitute_clears (ma mi pa pre t U : string) :
  inert ma = true → inert mi = true → inert pa = true → inert pre = true →
  (∀ tok, tok ∈ placeholders → JS.occurrences tok t ≤ 1) →
  U ∈ placeholders →
  JS.occurrences U (substitute ma mi pa pre t) = 0.
Proof.
  intros Hma Hmi Hpa Hpre Ht HU. unfold substitute, numbers.
  set (s1 := JS.replace tok_major ma t).
  set (s2 := JS.replace tok_minor mi s1).
  set (s3 := JS.replace tok_patch pa s2).
  assert (∀ tok, tok ∈ placeholders → JS.occurrences tok s1 ≤ JS.occurrences tok t) as L1
    by (intros; apply replace_keeps; auto with tokens).
  assert (∀ tok, tok ∈ placeholders → JS.occurrences tok s2 ≤ JS.occurrences tok s1) as L2
    by (intros; apply replace_keeps; auto with tokens).
  assert (∀ tok, tok ∈ placeholders → JS.occurrences tok s3 ≤ JS.occurrences tok s2) as L3
    by (intros; apply replace_keeps; auto with tokens).
  assert (∀ tok, tok ∈ placeholders →
            JS.occurrences tok (JS.replace tok_prerelease pre s3)
            ≤ JS.occurrences tok s3) as L4
    by (intros; apply replace_keeps; auto with tokens).
  assert (JS.occurrences tok_major s1 = 0) as Z1
    by (apply replace_clears; auto with tokens).
  assert (JS.occurrences tok_minor s2 = 0) as Z2.
  { apply replace_clears; auto with tokens.
    specialize (L1 tok_minor tok_minor_in). specialize (Ht tok_minor tok_minor_in). lia. }
  assert (JS.occurrences tok_patch s3 = 0) as Z3.
  { apply replace_clears; auto with tokens.
    specialize (L1 tok_patch tok_patch_in). specialize (L2 tok_patch tok_patch_in).
    specialize (Ht tok_patch tok_patch_in). lia. }
  assert (JS.occurrences tok_prerelease (JS.replace tok_prerelease pre s3) = 0) as Z4.
  { apply replace_clears; auto with tokens.
    specialize (L1 tok_prerelease tok_prerelease_in).
    specialize (L2 tok_prerelease tok_prerelease_in).
    specialize (L3 tok_prerelease tok_prerelease_in).
    specialize (Ht tok_prerelease tok_prerelease_in). lia. }
  pose proof (L2 U HU). pose proof (L3 U HU). pose proof (L4 U HU).
  each_token HU; lia.
Qed.

(** Inert texts. *)
Lemma tails_nonempty (s q : string) : q ∈ tails s → ∃ a q', q = String a q'.
Proof.
  induction s as [|c s IH]; simpl; [by intros ?%elem_of_nil|].
  intros [-> | H]%elem_of_cons; eauto.
Qed.

Lemma inert_head (c : ascii) (s : string) :
  token_char c = false → JS.dollar_free (String c s) = true →
  inert (String c s) = true.
Proof.
  intros Hc Hd. unfold inert. rewrite Hd, andb_true_l.
  apply forallb_forall. intros tok Htok.
  apply forallb_forall. intros q Hq.
  destruct (tails_nonempty _ _ (proj2 (list_elem_of_In _ _) Hq)) as (a & q' & ->).
  simpl. destruct (Ascii.eqb a c) eqn:E; [|done].
  exfalso. unfold token_char in Hc.
  assert (existsb (λ tok, existsb (head_is c) (tails (inner tok))) placeholders = true);
    [|congruence].
  apply existsb_exists. exists tok. split; [done|].
  apply existsb_exists. exists (String a q'). by split.
Qed.

Lemma digit_not_token_char (c : ascii) :
  JS.digit c = true → token_char c = false.
Proof. by destruct c as [[] [] [] [] [] [] [] []]; vm_compute. Qed.

Lemma digit_not_dollar (c : ascii) :
  JS.digit c = true → Ascii.eqb c JS.dollar = false.
Proof. by destruct c as [[] [] [] [] [] [] [] []]; vm_compute. Qed.

Lemma all_digits_dollar_free (s : string) :
  all_digits s = true → JS.dollar_free s = true.
Proof.
  induction s as [|c s IH]; simpl; [done|].
  intros [Hc Hs]%andb_true_iff. by rewrite digit_not_dollar, IH.
Qed.

Lemma numeral_inert (n : string) : numeral n = true → inert n = true.
Proof.
  destruct n as [|c n]; [done|]. intros H. simpl in H.
  apply inert_head.
  - apply digit_not_token_char. by apply andb_true_iff in H as [? _].
  - by apply (all_digits_dollar_free (String c n)).
Qed.

Lemma boxed_inert (n : string) : numeral n = true → inert (boxed n) = true.
Proof.
  intros H. unfold boxed. simpl. apply inert_head; [by vm_compute|].
  change (JS.dollar_free ("@(" +:+ n +:+ ")") = true).
  rewrite !dollar_free_app, (all_digits_dollar_free n);
    [by vm_compute | by destruct n].
Qed.

Lemma quoted_inert (q : ascii) (p : string) :
  token_char q = false → Ascii.eqb q JS.dollar = false →
  JS.dollar_free p = true → inert (quoted q p) = true.
Proof.
  intros Hq Hd Hp. unfold quoted. apply inert_head; [done|].
  simpl. rewrite Hd, dollar_free_app, Hp. simpl. by rewrite Hd.
Qed.

Lemma java_prerelease_inert v :
  dollar_free_opt (prerelease v) = true → inert (java_prerelease v) = true.
Proof.
  unfold java_prerelease. destruct (prerelease v) as [p|]; simpl; [|by vm_compute].
  by apply quoted_inert.
Qed.

Lemma objc_prerelease_inert v :
  dollar_free_opt (prerelease v) = true → inert (objc_prerelease v) = true.
Proof.
  unfold objc_prerelease. destruct (prerelease v) as [p|]; simpl; [|by vm_compute].
  intros Hp. apply inert_head; [by vm_compute|].
  change (JS.dollar_free (String "@" (String JS.dquote (p +:+ String JS.dquote EmptyString))) = true).
  simpl. by rewrite dollar_free_app, Hp.
Qed.

Lemma cxx_prerelease_inert v :
  dollar_free_opt (prerelease v) = true → inert (cxx_prerelease v) = true.
Proof.
  unfold cxx_prerelease. destruct (prerelease v) as [p|]; simpl; [|by vm_compute].
  by apply quoted_inert.
Qed.

Lemma script_prerelease_inert v :
  dollar_free_opt (prerelease v) = true → inert (script_prerelease v) = true.
Proof.
  unfold script_prerelease. destruct (prerelease v) as [p|]; simpl; [|by vm_compute].
  by apply quoted_inert.
Qed.

Lemma includes_occurrences (p s : string) :
  JS.includes p s = false ↔ JS.occurrences p s = 0.
Proof.
  unfold JS.includes. rewrite <- occurrences_split_first_None.
  destruct (JS.split_first p s); split; done.
Qed.

(** *** The monad *)

Lemma bind_returned {A B : Type} (c : Script A) (k : A → Script B)
    (w w' : World) (a : A) :
  c w = (Returned a, w') → (c ≫= k) w = k a w'.
Proof. unfold mbind, script_bind. by intros ->. Qed.

Lemma bind_thrown {A B : Type} (c : Script A) (k : A → Script B)
    (w w' : World) (e : Failure) :
  c w = (Thrown e, w') → (c ≫= k) w = (Thrown e, w').
Proof. unfold mbind, script_bind. by intros ->. Qed.

Lemma bind_inv {A B : Type} (c : Script A) (k : A → Script B)
    (w w'' : World) (r : Outcome B) :
  (c ≫= k) w = (r, w'') →
  (∃ a w', c w = (Returned a, w') ∧ k a w' = (r, w''))
  ∨ (∃ e, c w = (Thrown e, w'') ∧ r = Thrown e).
Proof.
  unfold mbind, script_bind. destruct (c w) as [[a|e] w'] eqn:E.
  - intros H. left. eauto.
  - intros [= <- <-]. right. eauto.
Qed.

Lemma world_eta (w : World) :
  mkWorld (files w) (scratch w) (stdout w) (template_updates w) = w.
Proof. by destruct w. Qed.

(** *** What [grep -c] prints, read back *)

Lemma trim_end_no_white (s : string) :
  Number.no_white s = true → Number.trim_end s = s.
Proof.
  induction s as [|c s IH]; simpl; [done|].
  intros [Hc Hs]%andb_true_iff. apply negb_true_iff in Hc.
  rewrite IH by done. rewrite Hc. by destruct s.
Qed.

Lemma trim_end_newline (s : string) :
  Number.no_white s = true → Number.trim_end (s +:+ String JS.LF EmptyString) = s.
Proof.
  induction s as [|c s IH]; [done|].
  intros [Hc Hs]%andb_true_iff. apply negb_true_iff in Hc.
  change (String c s +:+ ?x) with (String c (s +:+ x)).
  cbn [Number.trim_end]. rewrite IH by done. rewrite Hc. by destruct s.
Qed.

Lemma trim_start_no_white (s x : string) :
  Number.no_white s = true → s ≠ EmptyString →
  Number.trim_start (s +:+ x) = s +:+ x.
Proof.
  destruct s as [|c s]; [done|]. intros [Hc _]%andb_true_iff _.
  apply negb_true_iff in Hc. simpl. by rewrite Hc.
Qed.

Lemma string_of_uint_no_white (d : Decimal.uint) :
  Number.no_white (NilEmpty.string_of_uint d) = true.
Proof. induction d; simpl; done. Qed.

Lemma trim_decimal (n : nat) :
  Number.trim (Shell.decimal n +:+ String JS.LF EmptyString) = Shell.decimal n.
Proof.
  unfold Number.trim, Shell.decimal.
  pose proof (string_of_uint_no_white (Nat.to_uint n)) as H.
  destruct (NilEmpty.string_of_uint (Nat.to_uint n)) as [|c s] eqn:E; [done|].
  rewrite trim_start_no_white by done. by apply trim_end_newline.
Qed.

Lemma append_empty (s : string) : s +:+ EmptyString = s.
Proof. induction s as [|c s IH]; simpl; congruence. Qed.

Lemma trim_decimal_id (n : nat) :
  Number.trim (Shell.decimal n) = Shell.decimal n.
Proof.
  unfold Number.trim, Shell.decimal.
  pose proof (string_of_uint_no_white (Nat.to_uint n)) as H.
  destruct (NilEmpty.string_of_uint (Nat.to_uint n)) as [|c s] eqn:E; [done|].
  rewrite <- (append_empty (String c s)) at 1.
  rewrite trim_start_no_white, append_empty by done.
  by apply trim_end_no_white.
Qed.

(** What [grep -c] prints is read back as the count. *)
Lemma of_string_decimal (n : nat) :
  Number.of_string (Number.trim (Shell.decimal n +:+ String JS.LF EmptyString))
  = Some n.
Proof.
  unfold Number.of_string. rewrite trim_decimal, trim_decimal_id.
  unfold Shell.decimal. rewrite NilEmpty.usu. simpl.
  by rewrite DecimalNat.Unsigned.of_to.
Qed.

(** ** The steps of the script *)

Lemma setSource_run (v : VersionRecord) (w : World) :
  setSource v w = (Returned (), with_files (source_files v (files w)) w).
Proof.
  unfold setSource, source_files, content, mbind, script_bind, cat,
    writeFileSync, with_files. simpl.
  rewrite !lookup_insert_ne by done. done.
Qed.

Lemma source_files_templates (v : VersionRecord) (cwd : gmap string string)
    (t : string) :
  t ∈ [java_template; objc_template; cxx_template; script_template] →
  source_files v cwd !! t = cwd !! t.
Proof.
  intros H. unfold source_files.
  repeat (apply elem_of_cons in H as [-> | H]);
    [ .. | by apply elem_of_nil in H ]; by rewrite !lookup_insert_ne.
Qed.

(** C9. Rendering is repeatable. Whatever the templates hold and whatever the
    version record, each of the four files [setSource] writes is the text of
    its renderer for its template, and a second [setSource] with the same
    record leaves the world the first one left: the four files are byte for
    byte what they were. *)
Theorem setSource_repeatable (v : VersionRecord) (w : World) :
  let once := (setSource v w).2 in
  let twice := (setSource v once).2 in
  files once !! java_file
    = Some (render_java (content (files w) java_template) v)
  ∧ files once !! objc_file
    = Some (render_objc (content (files w) objc_template) v)
  ∧ files once !! cxx_file
    = Some (render_cxx (content (files w) cxx_template) v)
  ∧ files once !! script_file
    = Some (render_script (content (files w) script_template) v)
  ∧ twice = once.
Proof.
  cbv zeta. rewrite setSource_run. cbn [snd]. rewrite setSource_run.
  cbn [snd with_files files scratch stdout template_updates].
  repeat split.
  - unfold source_files. rewrite !lookup_insert_ne by done; by rewrite lookup_insert_eq.
  - unfold source_files. rewrite !lookup_insert_ne by done; by rewrite lookup_insert_eq.
  - unfold source_files. rewrite !lookup_insert_ne by done; by rewrite lookup_insert_eq.
  - unfold source_files. by rewrite lookup_insert_eq.
  - unfold with_files. cbn [files scratch stdout template_updates]. f_equal.
    unfold source_files at 1. unfold content.
    rewrite !source_files_templates by set_solver.
    fold (content (files w) java_template) (content (files w) objc_template)
      (content (files w) cxx_template) (content (files w) script_template).
    apply map_eq. intros k. unfold source_files.
    destruct (decide (k = script_file)) as [->|]; [by rewrite !lookup_insert_eq|].
    rewrite (lookup_insert_ne _ script_file) by done.
    destruct (decide (k = cxx_file)) as [->|].
    { rewrite lookup_insert_eq. rewrite (lookup_insert_ne _ script_file) by done.
      by rewrite lookup_insert_eq. }
    rewrite (lookup_insert_ne _ cxx_file) by done.
    destruct (decide (k = objc_file)) as [->|].
    { rewrite lookup_insert_eq. rewrite !(lookup_insert_ne _ script_file) by done.
      rewrite (lookup_insert_ne _ cxx_file) by done.
      by rewrite lookup_insert_eq. }
    rewrite (lookup_insert_ne _ objc_file) by done.
    destruct (decide (k = java_file)) as [->|].
    { rewrite lookup_insert_eq. rewrite !lookup_insert_ne by done; by rewrite lookup_insert_eq. }
    by rewrite !lookup_insert_ne by done.
Qed.

(** *** setGradle *)

Lemma setGradle_missing (v : VersionRecord) (w : World) :
  files w !! gradle_properties = None →
  setGradle v w
  = (Thrown sed_failure,
     with_stdout (stdout w ++ ["Couldn't update version for Gradle"]) w).
Proof.
  intros H. unfold setGradle, mbind, script_bind, Sed.in_place. rewrite H.
  reflexivity.
Qed.

Lemma setGradle_present (v : VersionRecord) (w : World) (contents : string) :
  files w !! gradle_properties = Some contents →
  setGradle v w
  = (Returned (),
     with_files (<[gradle_properties := sed_text v contents]> (files w)) w).
Proof.
  intros H. unfold setGradle, mbind, script_bind, Sed.in_place. rewrite H.
  reflexivity.
Qed.

Lemma dot_star_all (s : string) :
  no_CR s = true → Sed.dot_star s = (s, EmptyString).
Proof.
  induction s as [|c s IH]; simpl; [done|].
  intros [Hc Hs]%andb_true_iff. apply negb_true_iff in Hc.
  by rewrite Hc, IH.
Qed.

Lemma replace_line_match (v line : string) :
  JS.dollar_free v = true → Sed.matches line = true →
  no_CR line = true →
  Sed.replace_line ("VERSION_NAME=" +:+ v) line = "VERSION_NAME=" +:+ v.
Proof.
  intros Hv Hm Hl. unfold Sed.replace_line. rewrite Hm.
  assert (no_CR (JS.slice_from (String.length Sed.key) line) = true) as Hs.
  { clear Hm. revert Hl. generalize (String.length Sed.key). intros n.
    revert line. induction n as [|n IH]; intros [|c l]; simpl; try done.
    intros [_ ?]%andb_true_iff. by apply IH. }
  rewrite dot_star_all by done.
  rewrite dollar_free_substitution, append_empty; [done|].
  change (JS.dollar_free (String.append "VERSION_NAME=" v) = true).
  by rewrite dollar_free_app, Hv.
Qed.

Lemma replace_line_other (r line : string) :
  Sed.matches line = false → Sed.replace_line r line = line.
Proof. unfold Sed.replace_line. by intros ->. Qed.

(** *** Objects and manifests *)

Lemma obj_get_set_eq (k : string) (x : JSON) (o : list (string * JSON)) :
  obj_get k (obj_set k x o) = Some x.
Proof.
  induction o as [|[k' y] o IH]; simpl.
  - by rewrite decide_True.
  - destruct (decide (k = k')) as [->|Hne]; simpl.
    + by rewrite decide_True.
    + by rewrite decide_False.
Qed.

Lemma obj_get_set_ne (k k' : string) (x : JSON) (o : list (string * JSON)) :
  k' ≠ k → obj_get k' (obj_set k x o) = obj_get k' o.
Proof.
  intros Hne. induction o as [|[k'' y] o IH]; simpl.
  - by rewrite decide_False.
  - destruct (decide (k = k'')) as [->|Hne']; simpl.
    + by rewrite !decide_False.
    + destruct (decide (k' = k'')); [done|apply IH].
Qed.

Lemma obj_set_others (k : string) (x : JSON) (o : list (string * JSON)) :
  filter (λ kx, kx.1 ≠ k) (obj_set k x o) = filter (λ kx, kx.1 ≠ k) o.
Proof.
  induction o as [|[k' y] o IH]; simpl.
  - by rewrite filter_cons_False by (simpl; auto).
  - destruct (decide (k = k')) as [->|Hne].
    + rewrite !filter_cons_False by (simpl; auto). done.
    + rewrite !filter_cons_True by (simpl; auto). by rewrite IH.
Qed.

Lemma obj_get_map (f : string * JSON → string * JSON) (k : string)
    (o : list (string * JSON)) :
  (∀ kx, (f kx).1 = kx.1) →
  obj_get k (map f o) = (λ x, (f (k, x)).2) <$> obj_get k o.
Proof.
  intros Hf. induction o as [|[k' y] o IH]; simpl; [done|].
  pose proof (Hf (k', y)) as E. destruct (f (k', y)) as [k'' y'] eqn:F.
  simpl in E. subst k''. destruct (decide (k = k')) as [->|]; [|done].
  simpl. by rewrite F.
Qed.

Lemma apply_member_key overrides kx : (apply_member overrides kx).1 = kx.1.
Proof.
  unfold apply_member. destruct kx as [k []]; simpl; try done.
  by destruct (bool_decide _).
Qed.

Lemma applyPackageVersions_object (members : list (string * JSON))
    (overrides : gmap string string) :
  applyPackageVersions (JObject members) overrides
  = JObject (map (apply_member overrides) members).
Proof. reflexivity. Qed.

Lemma override_members_get (overrides : gmap string string)
    (deps : list (string * JSON)) (name : string) :
  obj_get name (override_members overrides deps)
  = (λ old, match overrides !! name with
            | Some x => JString x
            | None => old
            end) <$> obj_get name deps.
Proof. unfold override_members. by rewrite obj_get_map. Qed.

Lemma applied_dependency_field (members : list (string * JSON))
    (overrides : gmap string string) (section name : string) (old : JSON) :
  section ∈ dependency_sections →
  dependency_field (JObject members) section name = Some old →
  dependency_field (applyPackageVersions (JObject members) overrides)
    section name
  = Some (match overrides !! name with Some x => JString x | None => old end).
Proof.
  intros Hs. rewrite applyPackageVersions_object. unfold dependency_field.
  rewrite obj_get_map by apply apply_member_key.
  destruct (obj_get section members) as [[| | | | |deps]|]; try done.
  intros H. simpl. unfold apply_member. simpl.
  rewrite bool_decide_true by done. simpl.
  by rewrite override_members_get, H.
Qed.

Lemma applied_other_field (members : list (string * JSON))
    (overrides : gmap string string) (k : string) :
  k ∉ dependency_sections →
  field (applyPackageVersions (JObject members) overrides) k
  = field (JObject members) k.
Proof.
  intros Hk. rewrite applyPackageVersions_object. unfold field.
  rewrite obj_get_map by apply apply_member_key.
  destruct (obj_get k members) as [x|]; [|done]. simpl. f_equal.
  unfold apply_member. simpl. destruct x; try done.
  by rewrite bool_decide_false.
Qed.

Lemma version_not_section : "version" ∉ dependency_sections.
Proof. compute_done. Qed.

(** *** diff and grep *)

(** A file that did not change adds no line. *)
Lemma diff_added_same (l : list string) : Shell.diff_added l l = [].
Proof.
  induction l as [|x l IH]; [done|]. simpl. by rewrite String.eqb_refl.
Qed.






(** *** The map for the template *)

Lemma templateDependencyVersions_lookup (v : VersionRecord)
    (dependencyVersions : option (gmap string string)) (k : string) :
  templateDependencyVersions v dependencyVersions !! k
  = match default ∅ dependencyVersions !! k with
    | Some x => Some x
    | None => if decide (k = "react-native") then Some (version v) else None
    end.
Proof.
  unfold templateDependencyVersions. rewrite lookup_union.
  destruct (default ∅ dependencyVersions !! k) as [x|] eqn:E.
  - by destruct ({[ "react-native" := version v ]} !! k).
  - rewrite (left_id_L None _). destruct (decide (k = "react-native")) as [->|].
    + by rewrite lookup_singleton_eq.
    + by rewrite lookup_singleton_ne.
Qed.

Lemma setGradle_files (v : VersionRecord) (w w' : World) (r : Outcome ())
    (p : string) :
  setGradle v w = (r, w') → p ≠ gradle_properties →
  files w' !! p = files w !! p.
Proof.
  intros H Hp. destruct (files w !! gradle_properties) as [contents|] eqn:E.
  - rewrite (setGradle_present v w contents E) in H. injection H as _ <-.
    cbn. by rewrite lookup_insert_ne.
  - rewrite (setGradle_missing v w E) in H. by injection H as _ <-.
Qed.

Section Facts.

Variable JSON_parse : string → option JSON.
Variable validateBuildType : string → Outcome ().
Variable parseVersion : string → string → Outcome VersionRecord.
Variable tmpdir : string.

#[local] Abbreviation run :=
  (setReactNativeVersion JSON_parse validateBuildType parseVersion tmpdir).
#[local] Abbreviation run_main :=
  (main JSON_parse validateBuildType parseVersion tmpdir).

(** *** setPackage and the template *)

Lemma setPackage_object (v : VersionRecord)
    (dependencyVersions : option (gmap string string)) (w : World)
    (members : list (string * JSON)) :
  JSON_parse (content (files w) package_json) = Some (JObject members) →
  ∃ members',
    match dependencyVersions with
    | Some overrides =>
        applyPackageVersions (JObject members) overrides = JObject members'
    | None => members' = members
    end
    ∧ setPackage JSON_parse v dependencyVersions w
      = (Returned (),
         with_files
           (<[package_json :=
                JSON_stringify
                  (JObject (obj_set "version" (JString (version v)) members'))]>
              (files w)) w).
Proof.
  intros H. unfold setPackage, mbind, script_bind, cat. fold (content (files w) package_json).
  rewrite H. destruct dependencyVersions as [overrides|]; simpl; eauto.
Qed.

Lemma setPackage_frame (v : VersionRecord)
    (dependencyVersions : option (gmap string string)) (w w' : World)
    (r : Outcome ()) :
  setPackage JSON_parse v dependencyVersions w = (r, w') →
  ∃ cwd, w' = with_files cwd w.
Proof.
  unfold setPackage, mbind, script_bind, cat, throw, writeFileSync.
  destruct (JSON_parse _) as [doc|]; [|intros [= <- <-]; exists (files w); by destruct w].
  destruct (assign_version _ _); intros [= <- <-]; eauto.
  exists (files w); by destruct w.
Qed.

Lemma updateTemplatePackage_frame (versions : gmap string string)
    (w w' : World) (r : Outcome ()) :
  updateTemplatePackage JSON_parse versions w = (r, w') →
  ∃ cwd,
    w' = with_files cwd
           (with_template_updates (template_updates w ++ [versions]) w).
Proof.
  unfold updateTemplatePackage, mbind, script_bind, cat, throw, writeFileSync.
  cbn [files with_template_updates].
  destruct (JSON_parse _) as [doc|]; intros [= <- <-]; eauto.
Qed.

Lemma setGradle_frame (v : VersionRecord) (w w' : World) (r : Outcome ()) :
  setGradle v w = (r, w') →
  ∃ cwd out, w' = with_stdout out (with_files cwd w).
Proof.
  destruct (files w !! gradle_properties) as [contents|] eqn:E.
  - rewrite (setGradle_present v w contents E). intros [= <- <-].
    eexists _, (stdout w). reflexivity.
  - rewrite (setGradle_missing v w E). intros [= <- <-].
    eexists (files w), _. reflexivity.
Qed.

(** *** The validation *)

Lemma validateChanges_run (v : VersionRecord) (tmp : string) (w : World) :
  validateChanges v tmp w
  = (Returned (),
     with_stdout
       (stdout w
        ++ if decide (matching v (default ∅ (scratch w !! tmp)) (files w)
                      = length filesToValidate)
           then [] else warning v) w).
Proof.
  unfold validateChanges, mbind, script_bind, exec_diff_grep, Shell.pipeline.
  rewrite of_string_decimal. unfold matching, changed_lines.
  destruct (decide (Some _ = Some _)) as [E|E].
  - injection E as E. rewrite decide_True by done.
    unfold mret, script_ret, with_stdout. rewrite app_nil_r. by destruct w.
  - rewrite decide_False by congruence.
    unfold echo, with_stdout, warning. cbn [files scratch stdout template_updates].
    by rewrite <- !List.app_assoc.
Qed.

(** *** The stretches of the script *)

Lemma phases (argVersion : string)
    (dependencyVersions : option (gmap string string)) (buildType : string)
    (w : World) :
  setReactNativeVersion JSON_parse validateBuildType parseVersion tmpdir
    argVersion dependencyVersions buildType w
  = (lift (validateBuildType buildType);;
     v ← lift (parseVersion argVersion buildType);
     tmp ← changes JSON_parse tmpdir v dependencyVersions;
     validateChanges v tmp) w.
Proof.
  unfold setReactNativeVersion, changes, beforeGradle, writeVersion, mbind,
    script_bind, lift, mret, script_ret.
  destruct (validateBuildType buildType); [|done].
  destruct (parseVersion argVersion buildType) as [v|]; [|done].
  destruct (mkdtempSync tmpdir w) as [[tmp|] w1]; [|done].
  destruct (echo _ w1) as [[[]|] w2]; [|done].
  destruct (saveFiles tmp w2) as [[[]|] w3]; [|done].
  destruct (setSource v w3) as [[[]|] w4]; [|done].
  destruct (setPackage _ _ _ w4) as [[[]|] w5]; [|done].
  destruct (updateTemplatePackage _ _ w5) as [[[]|] w6]; [|done].
  by destruct (setGradle v w6) as [[[]|] w7].
Qed.

(** C6. Where [validateBuildType] throws, or returns and [parseVersion]
    throws, [setReactNativeVersion] throws the same failure and leaves the
    world as it found it: no temporary folder is made, no snapshot taken,
    nothing echoed and no file written. From the command line the failure is
    not caught. *)
Theorem fails_before_any_change (argVersion : string)
    (dependencyVersions : option (gmap string string)) (buildType : string)
    (w : World) (e : Failure) :
  validateBuildType buildType = Thrown e
  ∨ (validateBuildType buildType = Returned ()
     ∧ parseVersion argVersion buildType = Thrown e) →
  run argVersion dependencyVersions buildType w = (Thrown e, w)
  ∧ run_main argVersion dependencyVersions buildType w = (Uncaught e, w).
Proof.
  intros H. unfold main.
  assert (run argVersion dependencyVersions buildType w = (Thrown e, w)) as ->;
    [|done].
  unfold setReactNativeVersion, mbind, script_bind, lift.
  destruct H as [-> | [-> ->]]; done.
Qed.

(** The stretch up to [setGradle] *)
Lemma beforeGradle_inv (v : VersionRecord)
    (dependencyVersions : option (gmap string string)) (w w1 : World)
    (r : Outcome string) :
  beforeGradle JSON_parse tmpdir v dependencyVersions w = (r, w1) →
  scratch w1 = <[tmpdir := snapshot (files w)]> (scratch w)
  ∧ (∀ tmp, r = Returned tmp → tmp = tmpdir)
  ∧ (template_updates w1 = template_updates w
     ∨ template_updates w1
       = template_updates w ++ [templateDependencyVersions v dependencyVersions])
  ∧ (∀ tmp, r = Returned tmp →
       template_updates w1
       = template_updates w ++ [templateDependencyVersions v dependencyVersions]).
Proof.
  unfold beforeGradle, mbind, script_bind, mkdtempSync, echo, saveFiles.
  cbn [files scratch stdout template_updates with_scratch with_stdout].
  rewrite lookup_insert_eq. cbn [from_option id].
  rewrite (right_id_L ∅ (∪)).
  rewrite insert_insert_eq. fold (snapshot (files w)).
  rewrite setSource_run.
  match goal with |- context [setPackage _ _ _ ?w0] => set (w3 := w0) end.
  destruct (setPackage _ _ _ w3) as [[[]|e] w4] eqn:E4.
  - destruct (setPackage_frame _ _ _ _ _ E4) as [cwd4 ->].
    match goal with |- context [updateTemplatePackage _ _ ?w0] => set (w4 := w0) end.
    destruct (updateTemplatePackage _ _ w4) as [[[]|e] w5] eqn:E5;
      destruct (updateTemplatePackage_frame _ _ _ _ E5) as [cwd5 ->];
      intros [= <- <-]; cbn; repeat split; auto; by intros ? [=].
  - destruct (setPackage_frame _ _ _ _ _ E4) as [cwd4 ->].
    intros [= <- <-]. cbn. repeat split; auto; by intros ? [=].
Qed.

Lemma changes_inv (v : VersionRecord)
    (dependencyVersions : option (gmap string string)) (w w1 : World)
    (r : Outcome string) :
  changes JSON_parse tmpdir v dependencyVersions w = (r, w1) →
  scratch w1 = <[tmpdir := snapshot (files w)]> (scratch w)
  ∧ (∀ tmp, r = Returned tmp → tmp = tmpdir)
  ∧ (template_updates w1 = template_updates w
     ∨ template_updates w1
       = template_updates w ++ [templateDependencyVersions v dependencyVersions])
  ∧ (∀ tmp, r = Returned tmp →
       template_updates w1
       = template_updates w ++ [templateDependencyVersions v dependencyVersions]).
Proof.
  unfold changes. intros H.
  apply bind_inv in H as [(tmp & w0 & H0 & H) | (e & H0 & ->)].
  - apply beforeGradle_inv in H0 as (Hs & Ht & Hu & Hu').
    specialize (Ht tmp eq_refl). specialize (Hu' tmp eq_refl). subst tmp.
    apply bind_inv in H as [([] & w0' & H1 & H) | (e & H1 & ->)].
    + injection H as <- <-.
      destruct (setGradle_frame _ _ _ _ H1) as (cwd & out & ->). cbn.
      repeat split; auto. by intros ? [= <-].
    + destruct (setGradle_frame _ _ _ _ H1) as (cwd & out & ->). cbn.
      repeat split; auto; by intros ? [=].
  - apply beforeGradle_inv in H0 as (Hs & Ht & Hu & Hu').
    repeat split; auto; by intros ? [=].
Qed.

Lemma run_from_changes (argVersion : string)
    (dependencyVersions : option (gmap string string)) (buildType : string)
    (w w1 : World) (v : VersionRecord) (tmp : string) :
  validateBuildType buildType = Returned () →
  parseVersion argVersion buildType = Returned v →
  changes JSON_parse tmpdir v dependencyVersions w = (Returned tmp, w1) →
  run argVersion dependencyVersions buildType w
  = (Returned (),
     with_stdout
       (stdout w1
        ++ if decide (matching v (snapshot (files w)) (files w1)
                      = length filesToValidate)
           then [] else warning v) w1).
Proof.
  intros Hb Hp Hc. rewrite phases.
  unfold mbind at 1, script_bind at 1, lift at 1. rewrite Hb.
  unfold mbind at 1, script_bind at 1, lift at 1. rewrite Hp.
  rewrite (bind_returned _ _ _ _ _ Hc), validateChanges_run.
  apply changes_inv in Hc as (Hs & Ht & _). rewrite (Ht tmp eq_refl), Hs.
  by rewrite lookup_insert_eq.
Qed.



(** C2, as amended. Where the script reaches [setGradle]: if the properties
    file does not exist, [sed] fails, [setGradle] echoes its message and
    throws the error text of [sed], and the script ends there, before the
    validation. If the file exists nothing is thrown, the script goes on to
    exit with status 0, and the file is rewritten line by line: a line that
    does not start with VERSION_NAME= is kept, and a line that does, in a
    file without carriage returns and for a version without a dollar sign,
    becomes VERSION_NAME= followed by the version. *)
Theorem gradle_update (argVersion : string)
    (dependencyVersions : option (gmap string string)) (buildType : string)
    (w w1 : World) (v : VersionRecord) (tmp : string) :
  validateBuildType buildType = Returned () →
  parseVersion argVersion buildType = Returned v →
  beforeGradle JSON_parse tmpdir v dependencyVersions w = (Returned tmp, w1) →
  match files w1 !! gradle_properties with
  | None =>
      run_main argVersion dependencyVersions buildType w
      = (Uncaught sed_failure,
         with_stdout (stdout w1 ++ ["Couldn't update version for Gradle"]) w1)
  | Some contents =>
      ∃ w2,
        run_main argVersion dependencyVersions buildType w = (Exit 0, w2)
        ∧ files w2 = <[gradle_properties := sed_text v contents]> (files w1)
  end
  ∧ (∀ line,
       Sed.matches line = false →
       Sed.replace_line ("VERSION_NAME=" +:+ version v) line = line)
  ∧ (∀ line,
       JS.dollar_free (version v) = true →
       Sed.matches line = true → no_CR line = true →
       Sed.replace_line ("VERSION_NAME=" +:+ version v) line
       = "VERSION_NAME=" +:+ version v).
Proof.
  intros Hb Hp H0. split; [|split].
  - destruct (files w1 !! gradle_properties) as [contents|] eqn:E.
    + assert (changes JSON_parse tmpdir v dependencyVersions w
              = (Returned tmp,
                 with_files
                   (<[gradle_properties := sed_text v contents]> (files w1))
                   w1)) as Hc.
      { unfold changes. rewrite (bind_returned _ _ _ _ _ H0).
        by rewrite (bind_returned _ _ _ _ _ (setGradle_present v w1 contents E)). }
      eexists. unfold main.
      by rewrite (run_from_changes _ _ _ _ _ _ _ Hb Hp Hc).
    + unfold main. rewrite phases.
      unfold mbind at 1, script_bind at 1, lift at 1. rewrite Hb.
      unfold mbind at 1, script_bind at 1, lift at 1. rewrite Hp.
      assert (changes JSON_parse tmpdir v dependencyVersions w
              = (Thrown sed_failure,
                 with_stdout
                   (stdout w1 ++ ["Couldn't update version for Gradle"]) w1))
        as Hc.
      { unfold changes. rewrite (bind_returned _ _ _ _ _ H0).
        by rewrite (bind_thrown _ _ _ _ _ (setGradle_missing v w1 E)). }
      by rewrite (bind_thrown _ _ _ _ _ Hc).
  - intros line. apply replace_line_other.
  - intros line. apply replace_line_match.
Qed.

(** C3, as amended. A run calls [updateTemplatePackage] at most once, and
    once if it returns. The map it passes holds every entry of the
    dependency versions the caller gave, has an entry for react-native, which
    is the version of the record where the caller gave none for that key, and
    holds nothing else. *)
Theorem template_version_map (argVersion : string)
    (dependencyVersions : option (gmap string string)) (buildType : string)
    (w w' : World) (r : Outcome ()) :
  run argVersion dependencyVersions buildType w = (r, w') →
  ∃ calls,
    template_updates w' = template_updates w ++ calls
    ∧ (r = Returned () → calls ≠ [])
    ∧ ∀ m, m ∈ calls →
        ∃ v,
          parseVersion argVersion buildType = Returned v
          ∧ calls = [m]
          ∧ (∀ k x, default ∅ dependencyVersions !! k = Some x →
                    m !! k = Some x)
          ∧ (default ∅ dependencyVersions !! "react-native" = None →
             m !! "react-native" = Some (version v))
          ∧ is_Some (m !! "react-native")
          ∧ (∀ k, k ≠ "react-native" →
                  m !! k = default ∅ dependencyVersions !! k).
Proof.
  rewrite phases. intros H.
  apply bind_inv in H as [([] & w0 & H0 & H) | (e & H0 & ->)].
  2:{ injection H0 as _ <-. exists []. rewrite app_nil_r.
      repeat split; [done|]. by intros m ?%elem_of_nil. }
  injection H0 as _ <-.
  apply bind_inv in H as [(v & w0 & H0 & H) | (e & H0 & ->)].
  2:{ injection H0 as _ <-. exists []. rewrite app_nil_r.
      repeat split; [done|]. by intros m ?%elem_of_nil. }
  injection H0 as Hp <-.
  assert (∀ m, m = templateDependencyVersions v dependencyVersions →
    ∃ v0, parseVersion argVersion buildType = Returned v0
      ∧ [templateDependencyVersions v dependencyVersions] = [m]
      ∧ (∀ k x, default ∅ dependencyVersions !! k = Some x → m !! k = Some x)
      ∧ (default ∅ dependencyVersions !! "react-native" = None →
         m !! "react-native" = Some (version v0))
      ∧ is_Some (m !! "react-native")
      ∧ (∀ k, k ≠ "react-native" →
              m !! k = default ∅ dependencyVersions !! k)) as Hprops.
  { intros m ->. exists v. repeat split; [done|..].
    - intros k x E. by rewrite templateDependencyVersions_lookup, E.
    - intros E. by rewrite templateDependencyVersions_lookup, E, decide_True.
    - rewrite templateDependencyVersions_lookup.
      destruct (default ∅ dependencyVersions !! "react-native"); [by eexists|].
      rewrite decide_True by done. by eexists.
    - intros k Hk. rewrite templateDependencyVersions_lookup.
      destruct (default ∅ dependencyVersions !! k); [done|].
      by rewrite decide_False. }
  apply bind_inv in H as [(tmp & w1 & H1 & H) | (e & H1 & ->)].
  - rewrite validateChanges_run in H. injection H as <- <-.
    apply changes_inv in H1 as (_ & _ & _ & Hu). specialize (Hu tmp eq_refl).
    exists [templateDependencyVersions v dependencyVersions].
    repeat split; [done|done|].
    intros m ->%list_elem_of_singleton. by apply Hprops.
  - apply changes_inv in H1 as (_ & _ & [Hu|Hu] & _).
    + exists []. rewrite app_nil_r. repeat split; [done|done|].
      by intros m ?%elem_of_nil.
    + exists [templateDependencyVersions v dependencyVersions].
      repeat split; [done|done|].
      intros m ->%list_elem_of_singleton. by apply Hprops.
Qed.

(** C8. Where the package manifest parses to an object, [setPackage] returns
    and writes a manifest whose [version] member is the version of the
    record. With overrides, every dependency field of the old manifest is
    still there, with the value of the override where the overrides have its
    name and with its old value where they do not, and the members other than
    [version] and the dependency sections are as they were. Without
    overrides, every member other than [version] is as it was. *)
Theorem setPackage_fields (v : VersionRecord)
    (dependencyVersions : option (gmap string string)) (w : World)
    (members : list (string * JSON)) :
  JSON_parse (content (files w) package_json) = Some (JObject members) →
  ∃ manifest,
    setPackage JSON_parse v dependencyVersions w
    = (Returned (),
       with_files (<[package_json := JSON_stringify manifest]> (files w)) w)
    ∧ field manifest "version" = Some (JString (version v))
    ∧ match dependencyVersions with
      | Some overrides =>
          (∀ section name old,
             section ∈ dependency_sections →
             dependency_field (JObject members) section name = Some old →
             dependency_field manifest section name
             = Some (match overrides !! name with
                     | Some x => JString x
                     | None => old
                     end))
          ∧ (∀ k, k ∉ "version" :: dependency_sections →
                  field manifest k = field (JObject members) k)
      | None =>
          ∀ k, k ≠ "version" → field manifest k = field (JObject members) k
      end.
Proof.
  intros H.
  destruct (setPackage_object v dependencyVersions w members H)
    as (members' & Hm & ->).
  eexists. split; [done|]. split; [apply obj_get_set_eq|].
  destruct dependencyVersions as [overrides|].
  - split.
    + intros section name old Hs Hold.
      pose proof (applied_dependency_field members overrides section name old
                    Hs Hold) as Hd.
      rewrite Hm in Hd. unfold dependency_field in *.
      rewrite obj_get_set_ne; [done|].
      intros ->. by apply version_not_section.
    + intros k Hk. apply not_elem_of_cons in Hk as [Hk1 Hk2].
      pose proof (applied_other_field members overrides k Hk2) as Hf.
      rewrite Hm in Hf. unfold field in *. by rewrite obj_get_set_ne.
  - subst members'. intros k Hk. unfold field. by rewrite obj_get_set_ne.
Qed.

Lemma updateTemplatePackage_files (versions : gmap string string)
    (w w' : World) (r : Outcome ()) (p : string) :
  updateTemplatePackage JSON_parse versions w = (r, w') →
  p ≠ template_package_json →
  files w' !! p = files w !! p.
Proof.
  unfold updateTemplatePackage, mbind, script_bind, cat, throw, writeFileSync.
  cbn [files with_template_updates]. intros H Hp.
  destruct (JSON_parse _) as [doc|]; injection H as _ <-; [|done].
  cbn. by rewrite lookup_insert_ne.
Qed.

(** C10. Without dependency versions, where the package manifest parses to
    an object: whatever comes of the rest of the run, the manifest on disk is
    the old one with its [version] member set, all other members being the
    old ones in the old order, and [updateTemplatePackage] has been called
    once, with the map of the one entry from react-native to the version. *)
Theorem null_dependency_versions (argVersion buildType : string)
    (w w' : World) (r : Outcome ()) (v : VersionRecord)
    (members : list (string * JSON)) :
  validateBuildType buildType = Returned () →
  parseVersion argVersion buildType = Returned v →
  JSON_parse (content (files w) package_json) = Some (JObject members) →
  run argVersion None buildType w = (r, w') →
  let members' := obj_set "version" (JString (version v)) members in
  files w' !! package_json = Some (JSON_stringify (JObject members'))
  ∧ obj_get "version" members' = Some (JString (version v))
  ∧ filter (λ kx, kx.1 ≠ "version") members'
    = filter (λ kx, kx.1 ≠ "version") members
  ∧ template_updates w'
    = template_updates w ++ [{[ "react-native" := version v ]}].
Proof.
  intros Hb Hp Hj H members'.
  split; [|split; [apply obj_get_set_eq | split; [apply obj_set_others|]]].
  - revert H. unfold setReactNativeVersion, writeVersion, mbind, script_bind,
      lift, mkdtempSync, echo, saveFiles.
    rewrite Hb, Hp. cbn [files scratch stdout template_updates with_scratch
                         with_stdout].
    rewrite setSource_run.
    match goal with |- context [setPackage _ _ _ ?w0] => set (w3 := w0) end.
    assert (JSON_parse (content (files w3) package_json)
            = Some (JObject members)) as Hj3.
    { subst w3. cbn. unfold content, source_files.
      by rewrite !lookup_insert_ne by done. }
    destruct (setPackage_object v None w3 members Hj3)
      as (? & -> & ->).
    match goal with |- context [updateTemplatePackage _ _ ?w0] => set (w4 := w0) end.
    destruct (updateTemplatePackage _ _ w4) as [[[]|e] w5] eqn:E5.
    + pose proof (updateTemplatePackage_files _ _ _ _ package_json E5) as F5.
      destruct (setGradle v w5) as [[[]|e] w6] eqn:E6.
      * pose proof (setGradle_files _ _ _ _ package_json E6) as F6.
        rewrite validateChanges_run. intros [= _ <-]. cbn.
        rewrite F6, F5 by done. subst w4. cbn. by rewrite lookup_insert_eq.
      * pose proof (setGradle_files _ _ _ _ package_json E6) as F6.
        intros [= _ <-]. rewrite F6, F5 by done. subst w4. cbn.
        by rewrite lookup_insert_eq.
    + pose proof (updateTemplatePackage_files _ _ _ _ package_json E5) as F5.
      intros [= _ <-]. rewrite F5 by done. subst w4. cbn.
      by rewrite lookup_insert_eq.
  - revert H. rewrite phases.
    unfold mbind at 1, script_bind at 1, lift at 1. rewrite Hb.
    unfold mbind at 1, script_bind at 1, lift at 1. rewrite Hp.
    intros H.
    assert (templateDependencyVersions v None = {[ "react-native" := version v ]})
      as Et by (unfold templateDependencyVersions; cbn; apply (left_id_L ∅ (∪))).
    assert (∀ r1 w1, beforeGradle JSON_parse tmpdir v None w = (r1, w1) →
              template_updates w1
              = template_updates w ++ [templateDependencyVersions v None])
      as Hbefore.
    { intros r1 w1. unfold beforeGradle, mbind, script_bind, mkdtempSync, echo,
        saveFiles.
      cbn [files scratch stdout template_updates with_scratch with_stdout].
      rewrite setSource_run.
      match goal with |- context [setPackage _ _ _ ?w0] => set (w3 := w0) end.
      assert (JSON_parse (content (files w3) package_json)
              = Some (JObject members)) as Hj3.
      { subst w3. cbn. unfold content, source_files.
        by rewrite !lookup_insert_ne by done. }
      destruct (setPackage_object v None w3 members Hj3)
        as (? & -> & ->).
      match goal with |- context [updateTemplatePackage _ _ ?w0] => set (w4 := w0) end.
      destruct (updateTemplatePackage _ _ w4) as [[[]|e] w5] eqn:E5;
        destruct (updateTemplatePackage_frame _ _ _ _ E5) as [cwd5 ->];
        by intros [= _ <-]. }
    rewrite <- Et.
    apply bind_inv in H as [(tmp & w1 & H1 & H) | (e & H1 & ->)].
    + rewrite validateChanges_run in H. injection H as _ <-. cbn.
      apply changes_inv in H1 as (_ & _ & _ & Hu). by apply (Hu tmp).
    + unfold changes in H1.
      apply bind_inv in H1 as [(tmp & w1 & H1 & H2) | (e' & H1 & _)].
      * apply Hbefore in H1.
        apply bind_inv in H2 as [([] & w2 & H2 & H3) | (e' & H2 & _)].
        -- injection H3 as _ <-.
           destruct (setGradle_frame _ _ _ _ H2) as (? & ? & ->). by cbn.
        -- destruct (setGradle_frame _ _ _ _ H2) as (? & ? & ->). by cbn.
      * by apply Hbefore in H1.
Qed.

End Facts.

(** ** The renderers *)

(** C4 as stated fails: a placeholder that stands twice in a template is
    replaced once, and the second one stays in the output of every
    renderer. *)
Lemma placeholder_left_counterexample :
  render_java "${major}.${major}" v0750 = "0.${major}"
  ∧ JS.includes tok_major (render_java "${major}.${major}" v0750) = true
  ∧ JS.includes tok_major (render_objc "${major}.${major}" v0750) = true
  ∧ JS.includes tok_major (render_cxx "${major}.${major}" v0750) = true
  ∧ JS.includes tok_major (render_script "${major}.${major}" v0750) = true.
Proof. by vm_compute. Qed.

(** C4, as amended. For a template in which each placeholder stands at most
    once, and a version record whose numbers are decimal numerals and whose
    prerelease, if it has one, has no dollar sign: the output of each of the
    four renderers contains no placeholder. *)
Theorem no_placeholder_left (t : string) (v : VersionRecord) (tok : string) :
  (∀ tok', tok' ∈ placeholders → JS.occurrences tok' t ≤ 1) →
  numeral (major v) = true → numeral (minor v) = true →
  numeral (patch v) = true →
  dollar_free_opt (prerelease v) = true →
  tok ∈ placeholders →
  JS.includes tok (render_java t v) = false
  ∧ JS.includes tok (render_objc t v) = false
  ∧ JS.includes tok (render_cxx t v) = false
  ∧ JS.includes tok (render_script t v) = false.
Proof.
  intros Ht Hma Hmi Hpa Hpre Htok.
  unfold render_java, render_objc, render_cxx, render_script.
  rewrite !includes_occurrences.
  repeat split; apply substitute_clears;
    auto using numeral_inert, boxed_inert, java_prerelease_inert,
      objc_prerelease_inert, cxx_prerelease_inert, script_prerelease_inert.
Qed.

(** The template with each placeholder once, rendered for 0.75.0-rc.1. *)
Lemma no_placeholder_left_witness :
  JS.includes tok_prerelease (render_java once_template v0750rc) = false
  ∧ JS.includes tok_prerelease (render_objc once_template v0750rc) = false
  ∧ JS.includes tok_prerelease (render_cxx once_template v0750rc) = false
  ∧ JS.includes tok_prerelease (render_script once_template v0750rc) = false.
Proof.
  apply (no_placeholder_left once_template v0750rc tok_prerelease);
    try reflexivity.
  - intros tok' H. each_token H; vm_compute; lia.
  - apply tok_prerelease_in.
Defined.




(** ** The scenarios *)

Import Scenario.


Ltac evaluate :=
  repeat split;
  first [ vm_compute; reflexivity | vm_compute; discriminate ].

(** The spec's scenario A. *)
Example scenario_A :
  let outcome := run "0.75.0" None "dry-run" world in
  outcome.1 = Exit 0
  ∧ stdout outcome.2 = [tmp_line]
  ∧ files outcome.2 !! java_file
    = Some (text ["major = 0, minor = 75,"; "patch = 0, prerelease = null"])
  ∧ files outcome.2 !! gradle_properties
    = Some (text ["VERSION_NAME=0.75.0"; "GROUP=com.facebook.react"])
  ∧ (JSON_stringify <$> (assign_version package_doc "0.75.0"))
    = files outcome.2 !! package_json
  ∧ matching v0750 (snapshot cwd) (files outcome.2) = 3.
Proof. evaluate. Qed.


(** C2 as stated fails: with a properties file that has no VERSION_NAME
    line, [setGradle] returns and leaves the file as it was, and the script
    reaches the validation, which warns. *)
Lemma gradle_update_counterexample :
  Forall (λ line, Sed.matches line = false) (Sed.split_lines bare_gradle_text)
  ∧ (setGradle v0750 bare_world).1 = Returned ()
  ∧ files (setGradle v0750 bare_world).2 !! gradle_properties
    = Some bare_gradle_text
  ∧ (let outcome := run "0.75.0" None "dry-run" bare_world in
     outcome.1 = Exit 0
     ∧ files outcome.2 !! gradle_properties = Some bare_gradle_text
     ∧ stdout outcome.2 = tmp_line :: warning v0750).
Proof.
  split; [|evaluate].
  unfold bare_gradle_text, text. repeat constructor.
Qed.

(** C3 as stated fails: an override of react-native itself replaces the
    entry of the version in the map passed on. *)
Lemma template_version_map_counterexample :
  let outcome := run "0.75.0" (Some own_overrides) "dry-run" world in
  outcome.1 = Exit 0
  ∧ template_updates outcome.2 = [own_overrides]
  ∧ own_overrides !! "react-native" = Some "0.64.1"
  ∧ own_overrides !! "react-native" ≠ Some (version v0750).
Proof. evaluate. Qed.


Lemma pair_of_fst {A B : Type} (x : A * B) (a : A) : x.1 = a → x = (a, x.2).
Proof. destruct x. simpl. congruence. Qed.


Ltac evaluated :=
  first [ apply pair_of_fst; vm_compute; reflexivity
        | vm_compute; reflexivity ].

#[local] Abbreviation changed :=
  (changes JSON_parse tmpdir v0750 None world).2.


#[local] Abbreviation changed_bare :=
  (changes JSON_parse tmpdir v0750 None bare_world).2.


#[local] Abbreviation prepared :=
  (beforeGradle JSON_parse tmpdir v0750 None world).2.

(** Scenario A of the spec, at [setGradle]. *)
Lemma gradle_update_witness :
  match files prepared !! gradle_properties with
  | None =>
      main JSON_parse VersionUtils.validateBuildType VersionUtils.parseVersion
        tmpdir "0.75.0" None "dry-run" world
      = (Uncaught sed_failure,
         with_stdout
           (stdout prepared ++ ["Couldn't update version for Gradle"]) prepared)
  | Some contents =>
      ∃ w2,
        main JSON_parse VersionUtils.validateBuildType
          VersionUtils.parseVersion tmpdir "0.75.0" None "dry-run" world
        = (Exit 0, w2)
        ∧ files w2 = <[gradle_properties := sed_text v0750 contents]> (files prepared)
  end
  ∧ (∀ line,
       Sed.matches line = false →
       Sed.replace_line ("VERSION_NAME=" +:+ version v0750) line = line)
  ∧ (∀ line,
       JS.dollar_free (version v0750) = true →
       Sed.matches line = true → no_CR line = true →
       Sed.replace_line ("VERSION_NAME=" +:+ version v0750) line
       = "VERSION_NAME=" +:+ version v0750).
Proof.
  apply (gradle_update JSON_parse VersionUtils.validateBuildType
           VersionUtils.parseVersion tmpdir "0.75.0" None "dry-run" world
           prepared v0750 tmpdir);
    evaluated.
Defined.

#[local] Abbreviation ran :=
  (setReactNativeVersion JSON_parse VersionUtils.validateBuildType
     VersionUtils.parseVersion tmpdir "0.75.0" (Some own_overrides) "dry-run"
     world).

(** The run with react-native overridden. *)
Lemma template_version_map_witness :
  ∃ calls,
    template_updates ran.2 = template_updates world ++ calls
    ∧ (ran.1 = Returned () → calls ≠ [])
    ∧ ∀ m, m ∈ calls →
        ∃ v,
          VersionUtils.parseVersion "0.75.0" "dry-run" = Returned v
          ∧ calls = [m]
          ∧ (∀ k x, default ∅ (Some own_overrides) !! k = Some x →
                    m !! k = Some x)
          ∧ (default ∅ (Some own_overrides) !! "react-native" = None →
             m !! "react-native" = Some (version v))
          ∧ is_Some (m !! "react-native")
          ∧ (∀ k, k ≠ "react-native" →
                  m !! k = default ∅ (Some own_overrides) !! k).
Proof.
  apply (template_version_map JSON_parse VersionUtils.validateBuildType
           VersionUtils.parseVersion tmpdir "0.75.0" (Some own_overrides)
           "dry-run" world ran.2 ran.1).
  apply surjective_pairing.
Defined.

(** A version of two components. *)
Lemma fails_before_any_change_witness :
  setReactNativeVersion JSON_parse VersionUtils.validateBuildType
    VersionUtils.parseVersion tmpdir "1.2" None "dry-run" world
  = (Thrown VersionFormatError, world)
  ∧ main JSON_parse VersionUtils.validateBuildType VersionUtils.parseVersion
      tmpdir "1.2" None "dry-run" world
    = (Uncaught VersionFormatError, world).
Proof.
  apply (fails_before_any_change JSON_parse VersionUtils.validateBuildType
           VersionUtils.parseVersion tmpdir "1.2" None "dry-run" world
           VersionFormatError).
  right. split; reflexivity.
Defined.

(** Scenario B of the spec. *)
Lemma setPackage_fields_witness :
  ∃ manifest,
    setPackage JSON_parse v0750 (Some some_lib_overrides) world
    = (Returned (),
       with_files (<[package_json := JSON_stringify manifest]> (files world))
         world)
    ∧ field manifest "version" = Some (JString (version v0750))
    ∧ (∀ section name old,
         section ∈ dependency_sections →
         dependency_field (JObject [("name", JString "react-native");
           ("version", JString "1000.0.0");
           ("dependencies",
            JObject [("some-lib", JString "1.0.0");
                     ("other-lib", JString "3.1.4")])]) section name = Some old →
         dependency_field manifest section name
         = Some (match some_lib_overrides !! name with
                 | Some x => JString x
                 | None => old
                 end))
      ∧ (∀ k, k ∉ "version" :: dependency_sections →
              field manifest k
              = field (JObject [("name", JString "react-native");
                  ("version", JString "1000.0.0");
                  ("dependencies",
                   JObject [("some-lib", JString "1.0.0");
                            ("other-lib", JString "3.1.4")])]) k).
Proof.
  apply (setPackage_fields JSON_parse v0750 (Some some_lib_overrides) world).
  vm_compute; reflexivity.
Defined.

(** Scenario A of the spec, from end to end. *)
Lemma null_dependency_versions_witness :
  let ran :=
    setReactNativeVersion JSON_parse VersionUtils.validateBuildType
      VersionUtils.parseVersion tmpdir "0.75.0" None "dry-run" world in
  let members' :=
    obj_set "version" (JString (version v0750))
      [("name", JString "react-native");
       ("version", JString "1000.0.0");
       ("dependencies",
        JObject [("some-lib", JString "1.0.0");
                 ("other-lib", JString "3.1.4")])] in
  files ran.2 !! package_json = Some (JSON_stringify (JObject members'))
  ∧ obj_get "version" members' = Some (JString (version v0750))
  ∧ filter (λ kx, kx.1 ≠ "version") members'
    = filter (λ kx, kx.1 ≠ "version")
        [("name", JString "react-native");
         ("version", JString "1000.0.0");
         ("dependencies",
          JObject [("some-lib", JString "1.0.0");
                   ("other-lib", JString "3.1.4")])]
  ∧ template_updates ran.2
    = template_updates world ++ [{[ "react-native" := version v0750 ]}].
Proof.
  intros ran.
  apply (null_dependency_versions JSON_parse VersionUtils.validateBuildType
           VersionUtils.parseVersion tmpdir "0.75.0" "dry-run" world ran.2
           ran.1 v0750);
    first [ apply surjective_pairing | vm_compute; reflexivity ].
Defined.

(** * Further facts *)

(** *** Rendering *)

Lemma slice_from_app (p rest : string) :
  JS.slice_from (String.length p) (p +:+ rest) = rest.
Proof. induction p as [|c p IH]; [done|]. simpl. apply IH. Qed.

Lemma split_first_behind (a tok rest : string) :
  JS.dollar_free a = true →
  JS.split_first (String JS.dollar tok) (a +:+ String JS.dollar tok +:+ rest)
  = Some (a, rest).
Proof.
  intros Ha. induction a as [|c a IH].
  - change (EmptyString +:+ ?x) with x.
    pose proof (starts_with_app (String JS.dollar tok) rest) as Hs.
    pose proof (slice_from_app (String JS.dollar tok) rest) as Hl.
    destruct rest; simpl in *; by rewrite ?Hs, ?Hl.
  - apply andb_true_iff in Ha as [Hc Ha]. apply negb_true_iff in Hc.
    change (String c a +:+ ?x) with (String c (a +:+ x)).
    cbn [JS.split_first JS.starts_with].
    rewrite Ascii.eqb_sym, Hc. cbn [andb]. by rewrite IH.
Qed.

Lemma split_first_absent (tok s : string) :
  JS.dollar_free s = true → JS.split_first (String JS.dollar tok) s = None.
Proof.
  intros Hs. apply occurrences_split_first_None.
  rewrite <- (append_empty s). by rewrite occurrences_skip.
Qed.

Lemma replace_behind (tok x a rest : string) :
  tok ∈ placeholders → JS.dollar_free a = true → JS.dollar_free x = true →
  JS.replace tok x (a +:+ tok +:+ rest) = a +:+ x +:+ rest.
Proof.
  intros Ht Ha Hx. destruct (token_shape tok Ht) as [E _].
  unfold JS.replace. rewrite E at 1 2. rewrite split_first_behind by done.
  by rewrite dollar_free_substitution.
Qed.

Lemma replace_absent (tok x s : string) :
  tok ∈ placeholders → JS.dollar_free s = true → JS.replace tok x s = s.
Proof.
  intros Ht Hs. destruct (token_shape tok Ht) as [E _].
  unfold JS.replace. rewrite E. by rewrite split_first_absent.
Qed.

Lemma substitute_shaped (ma mi pa pre a b c d e : string) :
  JS.dollar_free a = true → JS.dollar_free b = true →
  JS.dollar_free c = true → JS.dollar_free d = true →
  JS.dollar_free ma = true → JS.dollar_free mi = true →
  JS.dollar_free pa = true → JS.dollar_free pre = true →
  substitute ma mi pa pre (shaped a b c d e)
  = a +:+ ma +:+ b +:+ mi +:+ c +:+ pa +:+ d +:+ pre +:+ e.
Proof.
  intros Ha Hb Hc Hd Hma Hmi Hpa Hpre. unfold substitute, numbers, shaped.
  rewrite (replace_behind tok_major) by auto using tok_major_in.
  rewrite <- (append_assoc ma), <- (append_assoc a).
  rewrite (replace_behind tok_minor)
    by (rewrite ?dollar_free_app, ?Ha, ?Hma, ?Hb; auto using tok_minor_in).
  rewrite <- (append_assoc mi), <- (append_assoc _ (mi +:+ c)).
  rewrite (replace_behind tok_patch)
    by (rewrite ?dollar_free_app, ?Ha, ?Hma, ?Hb, ?Hmi, ?Hc;
        auto using tok_patch_in).
  rewrite <- (append_assoc pa), <- (append_assoc _ (pa +:+ d)).
  rewrite (replace_behind tok_prerelease)
    by (rewrite ?dollar_free_app, ?Ha, ?Hma, ?Hb, ?Hmi, ?Hc, ?Hpa, ?Hd;
        auto using tok_prerelease_in).
  by rewrite !append_assoc.
Qed.

Lemma boxed_dollar_free (n : string) :
  JS.dollar_free n = true → JS.dollar_free (boxed n) = true.
Proof.
  intros H. unfold boxed. rewrite !dollar_free_app, H. by vm_compute.
Qed.

(** X1. A template in the shape of the shipped ones: the four placeholders
    once each, in the order major, minor, patch, prerelease, with no dollar
    sign in the text before or between them. For a record without dollar
    signs each renderer returns the template with every placeholder replaced:
    the numbers as they are (as [@(n)] in the Objective-C file), the
    prerelease as the literal of the format. The text after the last
    placeholder is kept whatever it holds. *)
Theorem render_shaped (a b c d e : string) (v : VersionRecord) :
  JS.dollar_free a = true → JS.dollar_free b = true →
  JS.dollar_free c = true → JS.dollar_free d = true →
  JS.dollar_free (major v) = true → JS.dollar_free (minor v) = true →
  JS.dollar_free (patch v) = true →
  dollar_free_opt (prerelease v) = true →
  render_java (shaped a b c d e) v
  = a +:+ major v +:+ b +:+ minor v +:+ c +:+ patch v +:+ d
    +:+ java_prerelease v +:+ e
  ∧ render_objc (shaped a b c d e) v
    = a +:+ boxed (major v) +:+ b +:+ boxed (minor v) +:+ c
      +:+ boxed (patch v) +:+ d +:+ objc_prerelease v +:+ e
  ∧ render_cxx (shaped a b c d e) v
    = a +:+ major v +:+ b +:+ minor v +:+ c +:+ patch v +:+ d
      +:+ cxx_prerelease v +:+ e
  ∧ render_script (shaped a b c d e) v
    = a +:+ major v +:+ b +:+ minor v +:+ c +:+ patch v +:+ d
      +:+ script_prerelease v +:+ e.
Proof.
  intros Ha Hb Hc Hd Hma Hmi Hpa Hpre.
  unfold render_java, render_objc, render_cxx, render_script.
  repeat split; apply substitute_shaped;
    auto using boxed_dollar_free, inert_dollar_free, java_prerelease_inert,
      objc_prerelease_inert, cxx_prerelease_inert, script_prerelease_inert.
Qed.

Lemma render_shaped_witness :
  render_java (shaped "major = " ", minor = " ", patch = " ", prerelease = " ";") v0750rc
  = "major = " +:+ major v0750rc +:+ ", minor = " +:+ minor v0750rc
    +:+ ", patch = " +:+ patch v0750rc +:+ ", prerelease = "
    +:+ java_prerelease v0750rc +:+ ";"
  ∧ render_objc (shaped "major = " ", minor = " ", patch = " ", prerelease = " ";") v0750rc
    = "major = " +:+ boxed (major v0750rc) +:+ ", minor = "
      +:+ boxed (minor v0750rc) +:+ ", patch = " +:+ boxed (patch v0750rc)
      +:+ ", prerelease = " +:+ objc_prerelease v0750rc +:+ ";"
  ∧ render_cxx (shaped "major = " ", minor = " ", patch = " ", prerelease = " ";") v0750rc
    = "major = " +:+ major v0750rc +:+ ", minor = " +:+ minor v0750rc
      +:+ ", patch = " +:+ patch v0750rc +:+ ", prerelease = "
      +:+ cxx_prerelease v0750rc +:+ ";"
  ∧ render_script (shaped "major = " ", minor = " ", patch = " ", prerelease = " ";") v0750rc
    = "major = " +:+ major v0750rc +:+ ", minor = " +:+ minor v0750rc
      +:+ ", patch = " +:+ patch v0750rc +:+ ", prerelease = "
      +:+ script_prerelease v0750rc +:+ ";".
Proof.
  apply (render_shaped "major = " ", minor = " ", patch = " ", prerelease = "
           ";" v0750rc); reflexivity.
Defined.

(** X2. A template without a dollar sign holds no placeholder, and the four
    renderers return it as it is, whatever the record. *)
Theorem render_verbatim (t : string) (v : VersionRecord) :
  JS.dollar_free t = true →
  render_java t v = t ∧ render_objc t v = t ∧ render_cxx t v = t
  ∧ render_script t v = t.
Proof.
  intros Ht.
  assert (∀ ma mi pa pre, substitute ma mi pa pre t = t) as H.
  { intros. unfold substitute, numbers.
    rewrite (replace_absent tok_major) by auto using tok_major_in.
    rewrite (replace_absent tok_minor) by auto using tok_minor_in.
    rewrite (replace_absent tok_patch) by auto using tok_patch_in.
    by rewrite (replace_absent tok_prerelease) by auto using tok_prerelease_in. }
  unfold render_java, render_objc, render_cxx, render_script.
  by rewrite !H.
Qed.

Lemma render_verbatim_witness :
  render_java "// no version here" v0750 = "// no version here"
  ∧ render_objc "// no version here" v0750 = "// no version here"
  ∧ render_cxx "// no version here" v0750 = "// no version here"
  ∧ render_script "// no version here" v0750 = "// no version here".
Proof. apply (render_verbatim "// no version here" v0750). reflexivity. Defined.

(** X3. [setSource] writes its four files and nothing else: every other
    file, the templates among them, is as it was, and so are the temporary
    folders, the output and the calls of the template updater. *)
Theorem setSource_frame (v : VersionRecord) (w : World) :
  (∀ p, p ∉ source_outputs →
        files (setSource v w).2 !! p = files w !! p)
  ∧ scratch (setSource v w).2 = scratch w
  ∧ stdout (setSource v w).2 = stdout w
  ∧ template_updates (setSource v w).2 = template_updates w.
Proof.
  rewrite setSource_run. cbn. repeat split.
  - intros p Hp. unfold source_outputs in Hp.
    repeat (apply not_elem_of_cons in Hp as [? Hp]).
    unfold source_files. by rewrite !lookup_insert_ne.
Qed.

(** X4. [cat] of a file that does not exist gives the empty string and does
    not throw: where a template is missing, [setSource] writes its file
    all the same, and writes it empty. *)
Theorem setSource_missing_template (v : VersionRecord) (w : World)
    (template file : string)
    (render : string → VersionRecord → string) :
  (template, file, render) ∈ source_targets →
  files w !! template = None →
  files (setSource v w).2 !! file = Some EmptyString.
Proof.
  intros Hin Hnone. rewrite setSource_run. cbn. unfold source_targets in Hin.
  repeat (apply elem_of_cons in Hin as [[= -> -> ->] | Hin]);
    [ .. | by apply elem_of_nil in Hin ];
    unfold source_files, content; rewrite Hnone;
    rewrite ?lookup_insert_ne by done; by rewrite lookup_insert_eq.
Qed.

Lemma setSource_missing_template_witness :
  files (setSource v0750
           (with_files (delete objc_template Scenario.cwd) Scenario.world)).2
    !! objc_file
  = Some EmptyString.
Proof.
  apply (setSource_missing_template v0750 _ objc_template objc_file render_objc).
  - vm_compute. apply list_elem_of_further, list_elem_of_here.
  - vm_compute. reflexivity.
Defined.

(** *** sed: lines *)

Lemma split_lines_cons (s : string) :
  ∃ l ls, Sed.split_lines s = l :: ls.
Proof.
  induction s as [|c s (l & ls & IH)]; simpl; [by eauto|].
  destruct (Ascii.eqb c JS.LF); [by eauto|]. rewrite IH. eauto.
Qed.

Lemma join_lines_cons (l l' : string) (ls : list string) :
  Sed.join_lines (l :: l' :: ls)
  = l +:+ String JS.LF (Sed.join_lines (l' :: ls)).
Proof. reflexivity. Qed.

Lemma join_split (s : string) : Sed.join_lines (Sed.split_lines s) = s.
Proof.
  induction s as [|c s IH]; [done|]. cbn [Sed.split_lines].
  destruct (split_lines_cons s) as (l & ls & E). rewrite E in *.
  destruct (Ascii.eqb c JS.LF) eqn:Ec.
  - apply Ascii.eqb_eq in Ec as ->. by rewrite join_lines_cons, IH.
  - destruct ls as [|l' ls].
    + change (Sed.join_lines [?x]) with x in *. by rewrite IH.
    + rewrite join_lines_cons in *.
      change (String c l +:+ ?x) with (String c (l +:+ x)). by rewrite IH.
Qed.

Lemma split_lines_no_LF (l : string) :
  no_LF l = true → Sed.split_lines l = [l].
Proof.
  induction l as [|c l IH]; [done|]. simpl.
  intros [Hc Hl]%andb_true_iff. apply negb_true_iff in Hc.
  by rewrite Hc, IH.
Qed.

Lemma split_lines_line (l rest : string) :
  no_LF l = true →
  Sed.split_lines (l +:+ String JS.LF rest) = l :: Sed.split_lines rest.
Proof.
  induction l as [|c l IH]; intros Hl.
  - done.
  - apply andb_true_iff in Hl as [Hc Hl]. apply negb_true_iff in Hc.
    change (String c l +:+ ?x) with (String c (l +:+ x)).
    cbn [Sed.split_lines]. by rewrite Hc, IH.
Qed.

Lemma split_join (l : string) (ls : list string) :
  Forall (λ x, no_LF x = true) (l :: ls) →
  Sed.split_lines (Sed.join_lines (l :: ls)) = l :: ls.
Proof.
  revert l. induction ls as [|l' ls IH]; intros l H.
  - apply Forall_cons in H as [Hl _]. by apply split_lines_no_LF.
  - apply Forall_cons in H as [Hl H].
    rewrite join_lines_cons, split_lines_line by done. by rewrite IH.
Qed.

Lemma split_lines_lines (s : string) :
  Forall (λ x, no_LF x = true) (Sed.split_lines s).
Proof.
  induction s as [|c s IH]; simpl; [by repeat constructor|].
  destruct (Ascii.eqb c JS.LF) eqn:Ec; [by constructor|].
  destruct (Sed.split_lines s) as [|l ls]; [by repeat constructor; simpl; rewrite Ec|].
  apply Forall_cons in IH as [Hl Hls]. constructor; [|done].
  simpl. by rewrite Ec.
Qed.

(** *** sed: one line *)

Lemma no_LF_app (a b : string) : no_LF (a +:+ b) = no_LF a && no_LF b.
Proof. induction a as [|c a IH]; simpl; [done|]. by rewrite IH, andb_assoc. Qed.

Lemma dot_star_app (s : string) :
  (Sed.dot_star s).1 +:+ (Sed.dot_star s).2 = s.
Proof.
  induction s as [|c s IH]; simpl; [done|].
  destruct (Sed.line_terminator c); [done|].
  destruct (Sed.dot_star s) as [m rest]. simpl in *. by rewrite IH.
Qed.

Lemma dot_star_stop (body tail : string) (c : ascii) :
  no_CR body = true → Sed.line_terminator c = true →
  Sed.dot_star (body +:+ String c tail) = (body, String c tail).
Proof.
  intros Hb Hc. induction body as [|x body IH].
  - simpl. by rewrite Hc.
  - apply andb_true_iff in Hb as [Hx Hb]. apply negb_true_iff in Hx.
    change (String x body +:+ ?y) with (String x (body +:+ y)).
    cbn [Sed.dot_star]. by rewrite Hx, IH.
Qed.

Lemma dot_star_rest (s : string) :
  (Sed.dot_star s).2 = EmptyString
  ∨ ∃ c tail, (Sed.dot_star s).2 = String c tail
              ∧ Sed.line_terminator c = true.
Proof.
  induction s as [|c s IH]; simpl; [by left|].
  destruct (Sed.line_terminator c) eqn:E; [right; eauto|].
  by destruct (Sed.dot_star s) as [m rest].
Qed.

Lemma slice_key (s : string) :
  JS.slice_from (String.length Sed.key) (Sed.key +:+ s) = s.
Proof. apply slice_from_app. Qed.

Lemma matches_key (s : string) : Sed.matches (Sed.key +:+ s) = true.
Proof. apply starts_with_app. Qed.

Lemma matches_inv (line : string) :
  Sed.matches line = true →
  line = Sed.key +:+ JS.slice_from (String.length Sed.key) line.
Proof. apply starts_with_split. Qed.

(** The line [sed] makes of a matching line, for a version without a dollar
    sign. *)
Lemma replace_line_matching (version line : string) :
  JS.dollar_free version = true → Sed.matches line = true →
  Sed.replace_line (Sed.key +:+ version) line
  = Sed.key +:+ version
    +:+ (Sed.dot_star (JS.slice_from (String.length Sed.key) line)).2.
Proof.
  intros Hv Hm. unfold Sed.replace_line. rewrite Hm.
  destruct (Sed.dot_star _) as [m rest]. cbn [snd].
  rewrite dollar_free_substitution; [by rewrite append_assoc|].
  change (JS.dollar_free (String.append Sed.key version) = true).
  by rewrite dollar_free_app, Hv.
Qed.

(** X5. The [.*] of the pattern of [sed] stops at a carriage return. On a
    line VERSION_NAME=body followed by a carriage return, as in a file with
    CRLF line ends, the body without a line end, and for a version without a
    dollar sign, the replacement puts the version for the body and keeps the
    carriage return and what follows it. *)
Theorem replace_line_keeps_carriage_return (version body tail : string) :
  JS.dollar_free version = true → no_CR body = true →
  Sed.replace_line ("VERSION_NAME=" +:+ version)
    ("VERSION_NAME=" +:+ body +:+ String JS.CR tail)
  = "VERSION_NAME=" +:+ version +:+ String JS.CR tail.
Proof.
  intros Hv Hb. fold Sed.key.
  rewrite replace_line_matching by (done || apply matches_key).
  by rewrite slice_key, dot_star_stop.
Qed.

Lemma replace_line_keeps_carriage_return_witness :
  Sed.replace_line ("VERSION_NAME=" +:+ "0.75.0")
    ("VERSION_NAME=" +:+ "1000.0.0" +:+ String JS.CR EmptyString)
  = "VERSION_NAME=" +:+ "0.75.0" +:+ String JS.CR EmptyString.
Proof.
  apply (replace_line_keeps_carriage_return "0.75.0" "1000.0.0" EmptyString);
    reflexivity.
Defined.

Lemma replace_line_twice (version line : string) :
  JS.dollar_free version = true → no_CR version = true →
  Sed.replace_line (Sed.key +:+ version)
    (Sed.replace_line (Sed.key +:+ version) line)
  = Sed.replace_line (Sed.key +:+ version) line.
Proof.
  intros Hv Hn. destruct (Sed.matches line) eqn:Hm.
  - rewrite (replace_line_matching version line) by done.
    set (rest := (Sed.dot_star _).2).
    assert (Sed.dot_star (version +:+ rest) = (version, rest)) as Hd.
    { destruct (dot_star_rest (JS.slice_from (String.length Sed.key) line))
        as [E | (c & tail & E & Hc)]; fold rest in E; rewrite E.
      - rewrite append_empty. by apply dot_star_all.
      - by apply dot_star_stop. }
    rewrite replace_line_matching by (done || apply matches_key).
    by rewrite slice_key, Hd.
  - by rewrite !(replace_line_other _ line) by done.
Qed.

Lemma get_substitution_no_LF (m a b rep : string) :
  no_LF m = true → no_LF a = true → no_LF b = true → no_LF rep = true →
  no_LF (JS.get_substitution m a b rep) = true.
Proof.
  intros Hm Ha Hb.
  remember (String.length rep) as n eqn:En.
  revert rep En. induction n as [n IH] using lt_wf_ind. intros rep -> Hrep.
  destruct rep as [|c [|d r]]; [done| |].
  - simpl in *. by destruct (Ascii.eqb c JS.dollar).
  - assert (no_LF (JS.get_substitution m a b r) = true) as Hr.
    { apply (IH (String.length r)); [simpl; lia | done |].
      simpl in Hrep. by repeat (apply andb_true_iff in Hrep as [_ Hrep] || idtac).
    }
    assert (no_LF (JS.get_substitution m a b (String d r)) = true) as Hdr.
    { apply (IH (String.length (String d r))); [simpl; lia | done |].
      simpl in Hrep. by apply andb_true_iff in Hrep as [_ Hrep]. }
    apply andb_true_iff in Hrep as [Hc Hrep].
    cbn [JS.get_substitution].
    destruct (Ascii.eqb c JS.dollar) eqn:Ec; [|by simpl; rewrite Hc].
    destruct (Ascii.eqb d JS.dollar) eqn:Ed; [by simpl; rewrite Hr|].
    destruct (Ascii.eqb d JS.ampersand); [by rewrite no_LF_app, Hm, Hr|].
    destruct (Ascii.eqb d JS.backtick); [by rewrite no_LF_app, Ha, Hr|].
    destruct (Ascii.eqb d JS.squote); [by rewrite no_LF_app, Hb, Hr|].
    apply andb_true_iff in Hrep as [Hd _]. simpl. by rewrite Hc, Hd, Hr.
Qed.

Lemma slice_from_no_LF (n : nat) (s : string) :
  no_LF s = true → no_LF (JS.slice_from n s) = true.
Proof.
  revert s. induction n as [|n IH]; intros [|c s]; simpl; try done.
  intros [_ ?]%andb_true_iff. by apply IH.
Qed.

Lemma replace_line_no_LF (r line : string) :
  no_LF r = true → no_LF line = true →
  no_LF (Sed.replace_line r line) = true.
Proof.
  intros Hr Hl. unfold Sed.replace_line.
  destruct (Sed.matches line); [|done].
  pose proof (dot_star_app (JS.slice_from (String.length Sed.key) line)) as E.
  pose proof (slice_from_no_LF (String.length Sed.key) line Hl) as Hs.
  destruct (Sed.dot_star _) as [m rest]. cbn [fst snd] in E.
  rewrite <- E, no_LF_app in Hs. apply andb_true_iff in Hs as [Hm Hrest].
  rewrite no_LF_app, Hrest, andb_true_r.
  apply get_substitution_no_LF; try done.
Qed.

Lemma sed_text_lines (v : VersionRecord) (contents : string) :
  no_LF (version v) = true →
  Sed.split_lines (sed_text v contents)
  = map (Sed.replace_line ("VERSION_NAME=" +:+ version v))
      (Sed.split_lines contents).
Proof.
  intros Hv. unfold sed_text.
  pose proof (split_lines_lines contents) as Hl.
  destruct (split_lines_cons contents) as (l & ls & E). rewrite E in *.
  cbn [map]. apply split_join. rewrite <- (map_cons _ l ls).
  apply Forall_fmap. eapply Forall_impl; [exact Hl|].
  intros x Hx. cbn. apply replace_line_no_LF; [|done].
  change (no_LF (String.append "VERSION_NAME=" (version v)) = true).
  by rewrite no_LF_app, Hv.
Qed.

Lemma sed_text_twice (v : VersionRecord) (contents : string) :
  JS.dollar_free (version v) = true → no_CR (version v) = true →
  no_LF (version v) = true →
  sed_text v (sed_text v contents) = sed_text v contents.
Proof.
  intros Hd Hc Hl. unfold sed_text at 1. rewrite sed_text_lines by done.
  unfold sed_text. f_equal. rewrite map_map. apply map_ext. intros line.
  by apply (replace_line_twice (version v) line).
Qed.

Lemma no_CR_no_LF (s : string) : no_CR s = true → no_LF s = true.
Proof.
  induction s as [|c s IH]; simpl; [done|].
  intros [Hc Hs]%andb_true_iff. rewrite IH by done.
  unfold Sed.line_terminator in Hc. apply negb_true_iff in Hc.
  apply orb_false_iff in Hc as [-> _]. done.
Qed.

Lemma sed_text_no_match (v : VersionRecord) (contents : string) :
  Forall (λ line, Sed.matches line = false) (Sed.split_lines contents) →
  sed_text v contents = contents.
Proof.
  intros H. unfold sed_text. rewrite <- (join_split contents) at 2. f_equal.
  rewrite <- (map_id (Sed.split_lines contents)) at 2.
  apply map_ext_Forall. eapply Forall_impl; [exact H|].
  intros line Hm. by apply replace_line_other.
Qed.

(** X6. Where the properties file exists and none of its lines starts with
    VERSION_NAME=, [setGradle] returns and leaves the world as it found it:
    the file is written back with the text it had, and nothing is echoed. *)
Theorem setGradle_without_line (v : VersionRecord) (w : World)
    (contents : string) :
  files w !! gradle_properties = Some contents →
  Forall (λ line, Sed.matches line = false) (Sed.split_lines contents) →
  setGradle v w = (Returned (), w).
Proof.
  intros E H. rewrite (setGradle_present v w contents E).
  rewrite sed_text_no_match by done. rewrite insert_id by done.
  by destruct w.
Qed.

Lemma setGradle_without_line_witness :
  setGradle v0750 Scenario.bare_world = (Returned (), Scenario.bare_world).
Proof.
  apply (setGradle_without_line v0750 Scenario.bare_world
           Scenario.bare_gradle_text).
  - vm_compute. reflexivity.
  - unfold Scenario.bare_gradle_text, Scenario.text. repeat constructor.
Defined.

(** X7. For a version without a newline, [setGradle] rewrites the
    properties file line for line: the file it writes has as many lines as
    the old one, each the old line after the replacement of [sed]. *)
Theorem setGradle_line_for_line (v : VersionRecord) (w : World)
    (contents : string) :
  no_LF (version v) = true →
  files w !! gradle_properties = Some contents →
  ∃ written,
    files (setGradle v w).2 !! gradle_properties = Some written
    ∧ Sed.split_lines written
      = map (Sed.replace_line ("VERSION_NAME=" +:+ version v))
          (Sed.split_lines contents)
    ∧ length (Sed.split_lines written) = length (Sed.split_lines contents).
Proof.
  intros Hv E. rewrite (setGradle_present v w contents E). cbn.
  rewrite lookup_insert_eq. eexists. split; [done|].
  rewrite sed_text_lines by done. split; [done|]. by rewrite length_map.
Qed.

Lemma setGradle_line_for_line_witness :
  ∃ written,
    files (setGradle v0750 Scenario.world).2 !! gradle_properties
    = Some written
    ∧ Sed.split_lines written
      = map (Sed.replace_line ("VERSION_NAME=" +:+ version v0750))
          (Sed.split_lines Scenario.gradle_text)
    ∧ length (Sed.split_lines written)
      = length (Sed.split_lines Scenario.gradle_text).
Proof.
  apply (setGradle_line_for_line v0750 Scenario.world Scenario.gradle_text);
    vm_compute; reflexivity.
Defined.

(** X8. [setGradle] is repeatable: for a version without a dollar sign, a
    carriage return or a newline, a second [setGradle] with the same record
    leaves every file as the first one left it. *)
Theorem setGradle_twice (v : VersionRecord) (w : World) :
  JS.dollar_free (version v) = true → no_CR (version v) = true →
  files (setGradle v (setGradle v w).2).2 = files (setGradle v w).2.
Proof.
  intros Hd Hc. destruct (files w !! gradle_properties) as [contents|] eqn:E.
  - rewrite (setGradle_present v w contents E). cbn [snd].
    rewrite (setGradle_present v _ (sed_text v contents))
      by (cbn; by rewrite lookup_insert_eq).
    cbn. rewrite sed_text_twice by auto using no_CR_no_LF.
    by rewrite insert_insert_eq.
  - rewrite (setGradle_missing v w E). cbn [snd].
    by rewrite setGradle_missing by done.
Qed.

Lemma setGradle_twice_witness :
  files (setGradle v0750 (setGradle v0750 Scenario.world).2).2
  = files (setGradle v0750 Scenario.world).2.
Proof. apply (setGradle_twice v0750 Scenario.world); reflexivity. Defined.

(** X9. [setGradle] touches the properties file only: every other file is as
    it was, a properties file that does not exist is not made, one that
    exists is still there and nothing is echoed then; the temporary folders
    and the calls of the template updater are as before. *)
Theorem setGradle_frame_files (v : VersionRecord) (w : World) :
  (∀ p, p ≠ gradle_properties →
        files (setGradle v w).2 !! p = files w !! p)
  ∧ (files w !! gradle_properties = None →
     files (setGradle v w).2 = files w)
  ∧ (is_Some (files w !! gradle_properties) →
     is_Some (files (setGradle v w).2 !! gradle_properties)
     ∧ stdout (setGradle v w).2 = stdout w)
  ∧ scratch (setGradle v w).2 = scratch w
  ∧ template_updates (setGradle v w).2 = template_updates w.
Proof.
  destruct (files w !! gradle_properties) as [contents|] eqn:E.
  - rewrite (setGradle_present v w contents E). cbn. repeat split; try done.
    + intros p Hp. by rewrite lookup_insert_ne.
    + by rewrite lookup_insert_eq.
  - rewrite (setGradle_missing v w E). cbn. repeat split; try done.
Qed.

Lemma obj_set_keys (k : string) (x : JSON) (o : list (string * JSON)) :
  keys (obj_set k x o)
  = if bool_decide (k ∈ keys o) then keys o else keys o ++ [k].
Proof.
  unfold keys. induction o as [|[k' y] o IH]; [done|]. simpl.
  destruct (decide (k = k')) as [->|Hne]; simpl.
  - rewrite bool_decide_true by apply list_elem_of_here. done.
  - rewrite IH. destruct (decide (k ∈ map fst o)) as [Hin|Hout].
    + rewrite !bool_decide_true; [done | by apply list_elem_of_further | done].
    + rewrite !bool_decide_false; [done | | done].
      intros [?|?]%elem_of_cons; done.
Qed.

(** *** The pipeline *)

Lemma flat_map_nil {A B : Type} (f : A → list B) (l : list A) :
  Forall (λ x, f x = []) l → flat_map f l = [].
Proof. induction 1 as [|x l Hx _ IH]; simpl; [done|]. by rewrite Hx, IH. Qed.

Lemma diff_r_unchanged (tmp cwd : gmap string string) :
  (∀ p old, tmp !! p = Some old → cwd !! p = Some old) →
  Shell.diff_r tmp cwd = [].
Proof.
  intros H. unfold Shell.diff_r. apply flat_map_nil.
  apply Forall_forall. intros [p old] Hin. apply elem_of_map_to_list in Hin.
  cbn. rewrite (H p old Hin). by rewrite diff_added_same.
Qed.





(** X12. Where every file of the temporary folder is in the working
    directory with the text it had, [diff] prints nothing, the count is 0,
    and the validation echoes the three lines of the warning and returns. *)
Theorem validateChanges_unchanged (v : VersionRecord) (tmp : string)
    (w : World) :
  (∀ p old, default ∅ (scratch w !! tmp) !! p = Some old →
            files w !! p = Some old) →
  validateChanges v tmp w
  = (Returned (), with_stdout (stdout w ++ warning v) w).
Proof.
  intros H. rewrite validateChanges_run.
  unfold matching, changed_lines. by rewrite (diff_r_unchanged _ _ H).
Qed.

Lemma validateChanges_unchanged_witness :
  validateChanges v0750 Scenario.tmpdir
    (with_scratch {[ Scenario.tmpdir := snapshot Scenario.cwd ]} Scenario.world)
  = (Returned (),
     with_stdout
       (stdout (with_scratch {[ Scenario.tmpdir := snapshot Scenario.cwd ]}
                  Scenario.world) ++ warning v0750)
       (with_scratch {[ Scenario.tmpdir := snapshot Scenario.cwd ]}
          Scenario.world)).
Proof.
  apply (validateChanges_unchanged v0750 Scenario.tmpdir
           (with_scratch {[ Scenario.tmpdir := snapshot Scenario.cwd ]}
              Scenario.world)).
  intros p old. unfold with_scratch. cbn [scratch files].
  rewrite lookup_singleton_eq. cbn [from_option id]. unfold snapshot.
  intros H. by apply map_lookup_filter_Some in H as [H _].
Defined.

Section ManifestFacts.

Variable JSON_parse : string → option JSON.
Variable validateBuildType : string → Outcome ().
Variable parseVersion : string → string → Outcome VersionRecord.
Variable tmpdir : string.

#[local] Abbreviation run :=
  (setReactNativeVersion JSON_parse validateBuildType parseVersion tmpdir).

(** X13. Where [setPackage] throws, it has written nothing: the world is as
    it was. It throws either the syntax error of [JSON.parse], which has
    then refused the text of the manifest, or a type error on the assignment
    of [version], the text having parsed to something that is not an
    object. *)
Theorem setPackage_throws_nothing_written (v : VersionRecord)
    (dependencyVersions : option (gmap string string)) (w w' : World)
    (e : Failure) :
  setPackage JSON_parse v dependencyVersions w = (Thrown e, w') →
  w' = w
  ∧ ((e = JsonSyntaxError
      ∧ JSON_parse (content (files w) package_json) = None)
     ∨ (e = JsTypeError
        ∧ ∃ doc, JSON_parse (content (files w) package_json) = Some doc
                 ∧ ∀ members, doc ≠ JObject members)).
Proof.
  unfold setPackage, mbind, script_bind, cat, throw, writeFileSync.
  fold (content (files w) package_json).
  destruct (JSON_parse _) as [doc|].
  - destruct dependencyVersions as [overrides|];
      destruct doc; try done; intros [= <- <-];
      (split; [done|]); right; (split; [done|]); by eexists.
  - intros [= <- <-]. split; [done|]. by left.
Qed.

(** X14. Without dependency versions, for a manifest that parses to an
    object, [setPackage] keeps the order of the members: a [version] member
    stays where it was, and where there was none it is added at the end. No
    other file is written. *)
Theorem setPackage_member_order (v : VersionRecord) (w : World)
    (members : list (string * JSON)) :
  JSON_parse (content (files w) package_json) = Some (JObject members) →
  ∃ members',
    setPackage JSON_parse v None w
    = (Returned (),
       with_files
         (<[package_json := JSON_stringify (JObject members')]> (files w)) w)
    ∧ keys members'
      = (if bool_decide ("version" ∈ keys members) then keys members
         else keys members ++ ["version"])
    ∧ (∀ p, p ≠ package_json →
            files (setPackage JSON_parse v None w).2 !! p = files w !! p).
Proof.
  intros H. destruct (setPackage_object JSON_parse v None w members H)
    as (members' & -> & E).
  eexists. split; [exact E|]. split; [apply obj_set_keys|].
  intros p Hp. rewrite E. cbn. by rewrite lookup_insert_ne.
Qed.

(** X15. Where the build type and the version are accepted and the package
    manifest does not parse, the run throws the syntax error from
    [setPackage], and nothing is undone: the four source files have been
    written, the temporary folder holds the copies of the files to validate
    and its name has been echoed; the template updater has not been
    called and the properties file has not been touched. *)
Theorem manifest_unreadable (argVersion : string)
    (dependencyVersions : option (gmap string string)) (buildType : string)
    (w : World) (v : VersionRecord) :
  validateBuildType buildType = Returned () →
  parseVersion argVersion buildType = Returned v →
  JSON_parse (content (files w) package_json) = None →
  run argVersion dependencyVersions buildType w
  = (Thrown JsonSyntaxError,
     mkWorld (source_files v (files w))
       (<[tmpdir := snapshot (files w)]> (scratch w))
       (stdout w ++ ["The tmp versioning folder is " +:+ tmpdir])
       (template_updates w)).
Proof.
  intros Hb Hp Hj.
  unfold setReactNativeVersion, writeVersion, mbind, script_bind, lift,
    mkdtempSync, echo, saveFiles.
  rewrite Hb, Hp.
  cbn [files scratch stdout template_updates with_scratch with_stdout].
  rewrite lookup_insert_eq. cbn [from_option id].
  rewrite (right_id_L ∅ (∪)), insert_insert_eq. fold (snapshot (files w)).
  rewrite setSource_run.
  unfold setPackage, mbind, script_bind, cat.
  cbn [files scratch stdout template_updates with_files with_scratch
       with_stdout fst snd].
  unfold content in Hj. unfold source_files at 1.
  rewrite !lookup_insert_ne by done. by rewrite Hj.
Qed.

(** X16. Once the build type and the version are accepted, whatever comes
    of the run, thrown or returned: the temporary folder is still there at
    the end, holding the copies [saveFiles] took of the files to validate
    before anything was written, and the first line echoed names it. *)
Theorem snapshot_kept (argVersion : string)
    (dependencyVersions : option (gmap string string)) (buildType : string)
    (w w' : World) (r : Outcome ()) (v : VersionRecord) :
  validateBuildType buildType = Returned () →
  parseVersion argVersion buildType = Returned v →
  run argVersion dependencyVersions buildType w = (r, w') →
  scratch w' = <[tmpdir := snapshot (files w)]> (scratch w)
  ∧ ∃ rest, stdout w'
            = stdout w ++ ("The tmp versioning folder is " +:+ tmpdir) :: rest.
Proof.
  intros Hb Hp. rewrite phases.
  unfold mbind at 1, script_bind at 1, lift at 1. rewrite Hb.
  unfold mbind at 1, script_bind at 1, lift at 1. rewrite Hp.
  intros H.
  assert (∀ r1 w1, changes JSON_parse tmpdir v dependencyVersions w = (r1, w1) →
            ∃ rest, stdout w1
                    = stdout w
                      ++ ("The tmp versioning folder is " +:+ tmpdir) :: rest)
    as Hout.
  { intros r1 w1. unfold changes, beforeGradle, mbind, script_bind,
      mkdtempSync, echo, saveFiles.
    cbn [files scratch stdout template_updates with_scratch with_stdout].
    rewrite setSource_run.
    match goal with |- context [setPackage _ _ _ ?w0] => set (w3 := w0) end.
    destruct (setPackage _ _ _ w3) as [[[]|e] w4] eqn:E4;
      destruct (setPackage_frame _ _ _ _ _ _ E4) as [cwd4 ->].
    2:{ intros [= _ <-]. cbn. by exists []. }
    match goal with |- context [updateTemplatePackage _ _ ?w0] => set (w4 := w0) end.
    destruct (updateTemplatePackage _ _ w4) as [[[]|e] w5] eqn:E5;
      destruct (updateTemplatePackage_frame _ _ _ _ _ E5) as [cwd5 ->].
    2:{ intros [= _ <-]. cbn. by exists []. }
    unfold mret, script_ret.
    match goal with |- context [setGradle _ ?w0] => set (w5 := w0) end.
    destruct (files w5 !! gradle_properties) as [contents|] eqn:E.
    - rewrite (setGradle_present v w5 contents E). intros [= _ <-]. cbn.
      by exists [].
    - rewrite (setGradle_missing v w5 E). intros [= _ <-]. cbn.
      rewrite <- List.app_assoc. by eexists. }
  apply bind_inv in H as [(tmp & w1 & H1 & H) | (e & H1 & ->)].
  - rewrite validateChanges_run in H. injection H as _ <-.
    destruct (Hout _ _ H1) as [rest Hrest].
    apply changes_inv in H1 as (Hs & _). cbn. split; [done|].
    rewrite Hrest, <- List.app_assoc. by eexists.
  - destruct (Hout _ _ H1) as [rest Hrest].
    apply changes_inv in H1 as (Hs & _). split; [done|]. by eexists.
Qed.

End ManifestFacts.

Lemma setPackage_throws_nothing_written_witness :
  (setPackage Scenario.JSON_parse v0750 None unreadable_world).2
  = unreadable_world
  ∧ ((JsonSyntaxError = JsonSyntaxError
      ∧ Scenario.JSON_parse (content (files unreadable_world) package_json)
        = None)
     ∨ (JsonSyntaxError = JsTypeError
        ∧ ∃ doc,
            Scenario.JSON_parse (content (files unreadable_world) package_json)
            = Some doc
            ∧ ∀ members, doc ≠ JObject members)).
Proof.
  apply (setPackage_throws_nothing_written Scenario.JSON_parse v0750 None
           unreadable_world).
  apply pair_of_fst. vm_compute. reflexivity.
Defined.

Lemma setPackage_member_order_witness :
  ∃ members',
    setPackage Scenario.JSON_parse v0750 None Scenario.world
    = (Returned (),
       with_files
         (<[package_json := JSON_stringify (JObject members')]>
            (files Scenario.world)) Scenario.world)
    ∧ keys members'
      = (if bool_decide
              ("version" ∈ keys [("name", JString "react-native");
                 ("version", JString "1000.0.0");
                 ("dependencies",
                  JObject [("some-lib", JString "1.0.0");
                           ("other-lib", JString "3.1.4")])])
         then keys [("name", JString "react-native");
                ("version", JString "1000.0.0");
                ("dependencies",
                 JObject [("some-lib", JString "1.0.0");
                          ("other-lib", JString "3.1.4")])]
         else keys [("name", JString "react-native");
                ("version", JString "1000.0.0");
                ("dependencies",
                 JObject [("some-lib", JString "1.0.0");
                          ("other-lib", JString "3.1.4")])] ++ ["version"])
    ∧ (∀ p, p ≠ package_json →
            files (setPackage Scenario.JSON_parse v0750 None Scenario.world).2
              !! p
            = files Scenario.world !! p).
Proof.
  apply (setPackage_member_order Scenario.JSON_parse v0750 Scenario.world).
  vm_compute. reflexivity.
Defined.

Lemma manifest_unreadable_witness :
  setReactNativeVersion Scenario.JSON_parse VersionUtils.validateBuildType
    VersionUtils.parseVersion Scenario.tmpdir "0.75.0" None "dry-run"
    unreadable_world
  = (Thrown JsonSyntaxError,
     mkWorld (source_files v0750 (files unreadable_world))
       (<[Scenario.tmpdir := snapshot (files unreadable_world)]>
          (scratch unreadable_world))
       (stdout unreadable_world
        ++ ["The tmp versioning folder is " +:+ Scenario.tmpdir])
       (template_updates unreadable_world)).
Proof.
  apply (manifest_unreadable Scenario.JSON_parse VersionUtils.validateBuildType
           VersionUtils.parseVersion Scenario.tmpdir "0.75.0" None "dry-run"
           unreadable_world v0750);
    vm_compute; reflexivity.
Defined.

Lemma snapshot_kept_witness :
  let ran :=
    setReactNativeVersion Scenario.JSON_parse VersionUtils.validateBuildType
      VersionUtils.parseVersion Scenario.tmpdir "0.75.0" None "dry-run"
      Scenario.bare_world in
  scratch ran.2
  = <[Scenario.tmpdir := snapshot (files Scenario.bare_world)]>
      (scratch Scenario.bare_world)
  ∧ ∃ rest,
      stdout ran.2
      = stdout Scenario.bare_world
        ++ ("The tmp versioning folder is " +:+ Scenario.tmpdir) :: rest.
Proof.
  intros ran.
  apply (snapshot_kept Scenario.JSON_parse VersionUtils.validateBuildType
           VersionUtils.parseVersion Scenario.tmpdir "0.75.0" None "dry-run"
           Scenario.bare_world ran.2 ran.1 v0750);
    first [ apply surjective_pairing | vm_compute; reflexivity ].
Defined.

(** *** Files left alone *)

Lemma keeps_bind (S : list string) {A B : Type} (c : Script A)
    (k : A → Script B) :
  keeps_outside S c → (∀ a, keeps_outside S (k a)) →
  keeps_outside S (c ≫= k).
Proof.
  intros Hc Hk w r w'' H p Hp.
  apply bind_inv in H as [(a & w' & H1 & H2) | (e & H1 & _)].
  - rewrite (Hk a _ _ _ H2 p Hp). by apply (Hc _ _ _ H1).
  - by apply (Hc _ _ _ H1).
Qed.

Lemma keeps_pure (S : list string) {A : Type} (c : Script A) :
  (∀ w, files (c w).2 = files w) → keeps_outside S c.
Proof.
  intros Hc w r w' H p _. specialize (Hc w). rewrite H in Hc. cbn in Hc.
  by rewrite Hc.
Qed.

Lemma keeps_mono (S S' : list string) {A : Type} (c : Script A) :
  S ⊆ S' → keeps_outside S c → keeps_outside S' c.
Proof. intros HS Hc w r w' H p Hp. apply (Hc _ _ _ H). auto. Qed.

Lemma keeps_write (path : string) (S : list string) {A : Type}
    (c : Script A) :
  path ∈ S → keeps_outside [path] c → keeps_outside S c.
Proof.
  intros Hin. apply keeps_mono. intros p Hp.
  apply list_elem_of_singleton in Hp. by subst p.
Qed.

Lemma keeps_setSource (v : VersionRecord) :
  keeps_outside source_outputs (setSource v).
Proof.
  intros w r w' H p Hp. rewrite setSource_run in H. injection H as _ <-.
  unfold source_outputs in Hp.
  repeat (apply not_elem_of_cons in Hp as [? Hp]).
  cbn. unfold source_files. by rewrite !lookup_insert_ne.
Qed.

Lemma keeps_setGradle (v : VersionRecord) :
  keeps_outside [gradle_properties] (setGradle v).
Proof.
  intros w r w' H p Hp. apply (setGradle_files v w w' r); [done|].
  intros ->. apply Hp, list_elem_of_here.
Qed.

Lemma keeps_validateChanges (S : list string) (v : VersionRecord)
    (tmp : string) :
  keeps_outside S (validateChanges v tmp).
Proof. apply keeps_pure. intros w. by rewrite validateChanges_run. Qed.

Lemma in_filesToValidate :
  package_json ∈ filesToValidate ∧ gradle_properties ∈ filesToValidate
  ∧ template_package_json ∈ filesToValidate.
Proof.
  unfold filesToValidate. repeat split;
    repeat first [apply list_elem_of_here | apply list_elem_of_further].
Qed.

Section RunFacts.

Variable JSON_parse : string → option JSON.
Variable validateBuildType : string → Outcome ().
Variable parseVersion : string → string → Outcome VersionRecord.
Variable tmpdir : string.

Lemma keeps_setPackage (v : VersionRecord)
    (dependencyVersions : option (gmap string string)) :
  keeps_outside [package_json] (setPackage JSON_parse v dependencyVersions).
Proof.
  intros w r w' H p Hp. apply not_elem_of_cons in Hp as [Hp _].
  revert H. unfold setPackage, mbind, script_bind, cat, throw, writeFileSync.
  destruct (JSON_parse _) as [doc|]; [|by intros [= _ <-]].
  destruct (assign_version _ _); intros [= _ <-]; [|done].
  cbn. by rewrite lookup_insert_ne.
Qed.

Lemma keeps_updateTemplatePackage (versions : gmap string string) :
  keeps_outside [template_package_json]
    (updateTemplatePackage JSON_parse versions).
Proof.
  intros w r w' H p Hp. apply not_elem_of_cons in Hp as [Hp _].
  by apply (updateTemplatePackage_files JSON_parse versions w w' r).
Qed.

(** What follows [setSource] writes the three validated files only. *)
Lemma keeps_after_setSource (v : VersionRecord)
    (dependencyVersions : option (gmap string string)) (tmp : string) :
  keeps_outside filesToValidate
    ((setPackage JSON_parse v dependencyVersions;;
      updateTemplatePackage JSON_parse
        (templateDependencyVersions v dependencyVersions);;
      setGradle v);;
     validateChanges v tmp).
Proof.
  destruct in_filesToValidate as (Hp & Hg & Ht).
  apply keeps_bind; [|intros _; apply keeps_validateChanges].
  apply keeps_bind;
    [by apply (keeps_write package_json), keeps_setPackage|]. intros _.
  apply keeps_bind;
    [by apply (keeps_write template_package_json),
       keeps_updateTemplatePackage|]. intros _.
  by apply (keeps_write gradle_properties), keeps_setGradle.
Qed.

(** X17. Whatever the arguments and whatever comes of the run, a file that
    is not among the seven the script writes (the four of [setSource], the
    package manifest, the template manifest written by the template updater,
    and the properties file) is at the end what it was at the start: not
    made, not removed, not changed. *)
Theorem only_targets_written (argVersion : string)
    (dependencyVersions : option (gmap string string)) (buildType : string)
    (w w' : World) (r : Outcome ()) (p : string) :
  setReactNativeVersion JSON_parse validateBuildType parseVersion tmpdir
    argVersion dependencyVersions buildType w = (r, w') →
  p ∉ targets →
  files w' !! p = files w !! p.
Proof.
  intros H Hp. revert w r w' H p Hp.
  change (keeps_outside targets
            (setReactNativeVersion JSON_parse validateBuildType parseVersion
               tmpdir argVersion dependencyVersions buildType)).
  destruct in_filesToValidate as (Hp & Hg & Ht).
  unfold setReactNativeVersion, writeVersion.
  apply keeps_bind; [by apply keeps_pure|]. intros _.
  apply keeps_bind; [by apply keeps_pure|]. intros v.
  apply keeps_bind; [by apply keeps_pure|]. intros tmp.
  apply keeps_bind; [by apply keeps_pure|]. intros _.
  apply keeps_bind; [by apply keeps_pure|]. intros _.
  apply keeps_bind; [|intros _; apply keeps_validateChanges].
  apply keeps_bind.
  { apply (keeps_mono source_outputs targets (setSource v));
      [by apply list_subseteq_app_l | apply keeps_setSource]. }
  intros _. eapply (keeps_mono filesToValidate targets);
    [by apply list_subseteq_app_r|].
  apply keeps_bind;
    [by apply (keeps_write package_json), keeps_setPackage|]. intros _.
  apply keeps_bind;
    [by apply (keeps_write template_package_json),
       keeps_updateTemplatePackage|]. intros _.
  by apply (keeps_write gradle_properties), keeps_setGradle.
Qed.

(** X18. Once the build type and the version are accepted, whatever comes of
    the rest of the run, each of the four files of [setSource] holds at the
    end the text of its renderer for its template as the template was at the
    start: no later step writes them, and a failure of a later step does not
    take them back. *)
Theorem sources_written (argVersion : string)
    (dependencyVersions : option (gmap string string)) (buildType : string)
    (w w' : World) (r : Outcome ()) (v : VersionRecord)
    (template file : string) (render : string → VersionRecord → string) :
  validateBuildType buildType = Returned () →
  parseVersion argVersion buildType = Returned v →
  setReactNativeVersion JSON_parse validateBuildType parseVersion tmpdir
    argVersion dependencyVersions buildType w = (r, w') →
  (template, file, render) ∈ source_targets →
  files w' !! file = Some (render (content (files w) template) v).
Proof.
  intros Hb Hv H Hin.
  assert ((file ∉ filesToValidate)
          ∧ source_files v (files w) !! file
            = Some (render (content (files w) template) v)) as [Hout Hfile].
  { unfold source_targets in Hin.
    repeat (apply elem_of_cons in Hin as [[= -> -> ->] | Hin]);
      [ .. | by apply elem_of_nil in Hin ];
      (split;
       [ apply (bool_decide_unpack _); vm_compute; exact I
       | unfold source_files;
         rewrite ?lookup_insert_ne by done; by rewrite lookup_insert_eq ]). }
  revert H. unfold setReactNativeVersion, writeVersion.
  unfold mbind at 1, script_bind at 1, lift at 1. rewrite Hb.
  unfold mbind at 1, script_bind at 1, lift at 1. rewrite Hv.
  unfold mbind at 1, script_bind at 1, mkdtempSync at 1.
  unfold mbind at 1, script_bind at 1, echo at 1.
  unfold mbind at 1, script_bind at 1, saveFiles at 1.
  cbn [files scratch stdout template_updates with_scratch with_stdout].
  match goal with |- context [_ ?w0 = (r, w')] => set (w3 := w0) end.
  intros H.
  assert (∃ r0 w5,
            (setSource v;;
             setPackage JSON_parse v dependencyVersions;;
             updateTemplatePackage JSON_parse
               (templateDependencyVersions v dependencyVersions);;
             setGradle v) w3 = (r0, w5)
            ∧ files w' = files w5) as (r0 & w5 & H5 & ->).
  { apply bind_inv in H as [([] & w5 & H5 & H) | (e & H5 & _)].
    - exists (Returned ()), w5. split; [done|].
      rewrite validateChanges_run in H. by injection H as _ <-.
    - by exists (Thrown e), w'. }
  rewrite <- Hfile.
  apply bind_inv in H5 as [([] & w4 & H4 & H5) | (e & H4 & _)];
    rewrite setSource_run in H4; [|done].
  injection H4 as <-. change (files w3) with (files w).
  destruct in_filesToValidate as (Hp & Hg & Ht).
  assert (keeps_outside filesToValidate
            (setPackage JSON_parse v dependencyVersions;;
             updateTemplatePackage JSON_parse
               (templateDependencyVersions v dependencyVersions);;
             setGradle v)) as Hk.
  { apply keeps_bind;
      [by apply (keeps_write package_json), keeps_setPackage|]. intros _.
    apply keeps_bind;
      [by apply (keeps_write template_package_json),
         keeps_updateTemplatePackage|]. intros _.
    by apply (keeps_write gradle_properties), keeps_setGradle. }
  by rewrite (Hk _ _ _ H5 file Hout).
Qed.

(** X19. Where the build type and the version are accepted, the package
    manifest parses to an object, the template manifest parses and the
    properties file exists, the script run from the command line exits with
    status 0. The three conditions are on the working directory as it is at
    the start: no step of the script writes what a later step reads. *)
Theorem main_exits_zero (toVersion : string)
    (dependencyVersions : option (gmap string string)) (buildType : string)
    (w : World) (v : VersionRecord) (members : list (string * JSON))
    (template : JSON) (properties : string) :
  validateBuildType buildType = Returned () →
  parseVersion toVersion buildType = Returned v →
  JSON_parse (content (files w) package_json) = Some (JObject members) →
  JSON_parse (content (files w) template_package_json) = Some template →
  files w !! gradle_properties = Some properties →
  (main JSON_parse validateBuildType parseVersion tmpdir
     toVersion dependencyVersions buildType w).1 = Exit 0.
Proof.
  intros Hb Hv Hpackage Htemplate Hgradle. unfold main.
  assert (∃ w1, changes JSON_parse tmpdir v dependencyVersions w
                = (Returned tmpdir, w1)) as [w1 Hc].
  { unfold changes, beforeGradle, mbind, script_bind, mkdtempSync, echo,
      saveFiles.
    cbn [files scratch stdout template_updates with_scratch with_stdout].
    rewrite setSource_run.
    match goal with |- context [setPackage _ _ _ ?w0] => set (w3 := w0) end.
    destruct (setPackage_object JSON_parse v dependencyVersions w3 members)
      as (members' & _ & ->).
    { subst w3. cbn [files with_files with_scratch with_stdout]. rewrite <- Hpackage.
      unfold content, source_files. by rewrite !lookup_insert_ne. }
    match goal with
    | |- context [updateTemplatePackage _ _ ?w0] => set (w4 := w0)
    end.
    assert (files w4 !! template_package_json
            = files w !! template_package_json) as Ht4.
    { subst w4 w3. cbn [files with_files with_scratch with_stdout]. unfold source_files.
      by rewrite !lookup_insert_ne. }
    assert (files w4 !! gradle_properties = Some properties) as Hg4.
    { rewrite <- Hgradle. subst w4 w3. cbn [files with_files with_scratch with_stdout].
      unfold source_files. by rewrite !lookup_insert_ne. }
    unfold updateTemplatePackage, mbind, script_bind, cat, writeFileSync.
    cbn [files with_template_updates]. rewrite Ht4.
    fold (content (files w) template_package_json). rewrite Htemplate.
    unfold mret at 1, script_ret at 1.
    match goal with |- context [setGradle _ ?w0] => set (w5 := w0) end.
    rewrite (setGradle_present v w5 properties); [eauto|].
    subst w5. cbn [files with_files with_scratch with_stdout]. by rewrite lookup_insert_ne. }
  by rewrite (run_from_changes JSON_parse validateBuildType parseVersion
                tmpdir toVersion dependencyVersions buildType w w1 v tmpdir
                Hb Hv Hc).
Qed.

End RunFacts.

Lemma only_targets_written_witness :
  files (setReactNativeVersion Scenario.JSON_parse
           VersionUtils.validateBuildType VersionUtils.parseVersion
           Scenario.tmpdir "0.75.0" None "dry-run" Scenario.world).2
    !! java_template
  = files Scenario.world !! java_template.
Proof.
  apply (only_targets_written Scenario.JSON_parse
           VersionUtils.validateBuildType VersionUtils.parseVersion
           Scenario.tmpdir "0.75.0" None "dry-run" Scenario.world _
           (setReactNativeVersion Scenario.JSON_parse
              VersionUtils.validateBuildType VersionUtils.parseVersion
              Scenario.tmpdir "0.75.0" None "dry-run" Scenario.world).1).
  - apply surjective_pairing.
  - apply (bool_decide_unpack (java_template ∉ targets)). vm_compute. exact I.
Defined.

Lemma sources_written_witness :
  files (setReactNativeVersion Scenario.JSON_parse
           VersionUtils.validateBuildType VersionUtils.parseVersion
           Scenario.tmpdir "0.75.0" None "dry-run" unreadable_world).2
    !! java_file
  = Some (render_java (content (files unreadable_world) java_template) v0750).
Proof.
  apply (sources_written Scenario.JSON_parse
           VersionUtils.validateBuildType VersionUtils.parseVersion
           Scenario.tmpdir "0.75.0" None "dry-run" unreadable_world _
           (setReactNativeVersion Scenario.JSON_parse
              VersionUtils.validateBuildType VersionUtils.parseVersion
              Scenario.tmpdir "0.75.0" None "dry-run" unreadable_world).1
           v0750 java_template java_file render_java).
  - reflexivity.
  - vm_compute. reflexivity.
  - apply surjective_pairing.
  - apply list_elem_of_here.
Defined.

Lemma main_exits_zero_witness :
  (main Scenario.JSON_parse VersionUtils.validateBuildType
     VersionUtils.parseVersion Scenario.tmpdir "0.75.0" None "dry-run"
     Scenario.world).1 = Exit 0.
Proof.
  apply (main_exits_zero Scenario.JSON_parse VersionUtils.validateBuildType
           VersionUtils.parseVersion Scenario.tmpdir "0.75.0" None "dry-run"
           Scenario.world v0750
           [("name", JString "react-native");
            ("version", JString "1000.0.0");
            ("dependencies",
             JObject [("some-lib", JString "1.0.0");
                      ("other-lib", JString "3.1.4")])]
           Scenario.template_doc Scenario.gradle_text).
  - reflexivity.
  - vm_compute. reflexivity.
  - vm_compute. reflexivity.
  - vm_compute. reflexivity.
  - vm_compute. reflexivity.
Defined.
